(** * pywikibot.throttle: a shallow embedding of the multi-process throttle

    The development follows [pywikibot/throttle.py]: the registry file
    ([_read_file], [_write_file]), the process registry
    ([checkMultiplicity], [drop]), the delay calculator ([setDelays],
    [getDelay], [waittime]), the throttle gate ([wait], [__call__]) and the lag
    controller ([lag]).

    Conventions of the embedding.
    - Python numbers are rationals.  An [int] is an integer-valued rational
      (a [Z] where the code needs an [int]: pids, counts, parsed
      timestamps); float arithmetic is the exact operation followed by
      rounding to binary64 ([round64]); comparisons are exact, as they are
      in Python.
    - Python's [bool] is a subclass of [int] and [False == 0]: the module
      global [pid = False] is the integer [0].
    - A [str] is a [string] whose characters are code points below 256.
    - Methods run in a state-and-exception monad over the throttle object,
      the module global, the control file, the clock and a trace of the
      observable events (file opens, sleeps).
    - The re-entrant locks serialise threads; the embedding is sequential,
      [with self.lock:] is the identity.  Logging calls are left out. *)

From Stdlib Require Import ZArith QArith Qround Qabs Bool List String Ascii Lia.
From Stdlib Require Import DecimalString DecimalZ DecimalPos DecimalFacts.
From Stdlib Require Import Sorting.Sorted Sorting.Permutation OrdersEx.
Import ListNotations.

Local Open Scope Z_scope.

(** ** Python numbers *)

Module PyNum.

(** [a > b], [a < b], [a <= b] on numbers. *)
Definition gtb (a b : Q) : bool := negb (Qle_bool a b).
Definition ltb (a b : Q) : bool := negb (Qle_bool b a).
Definition leb (a b : Q) : bool := Qle_bool a b.

(** Truth value of a number: [0] and [0.0] are false. *)
Definition truthy (a : Q) : bool := negb (Qeq_bool a 0).

Definition truthyZ (n : Z) : bool := negb (n =? 0).

(** [x or y] on numbers, and on an optional first operand ([None] is false). *)
Definition or_else (a b : Q) : Q := if truthy a then a else b.
Definition opt_or (a : option Q) (b : Q) : Q :=
  match a with
  | Some x => or_else x b
  | None => b
  end.

(** The builtins [max(a, b)] and [min(a, b)]: the first argument is kept
    unless the second is strictly larger (smaller). *)
Definition max (a b : Q) : Q := if gtb b a then b else a.
Definition min (a b : Q) : Q := if ltb b a then b else a.

(** Round to the nearest integer, ties to even. *)
Definition round_half_even (q : Q) : Z :=
  let f := Qfloor q in
  match Qcompare (q - inject_Z f) (1 # 2) with
  | Lt => f
  | Gt => f + 1
  | Eq => if Z.even f then f else f + 1
  end.

(** [2 ^ k] for any integer [k]. *)
Definition pow2 (k : Z) : Q := Qpower 2 k.
Definition pow10 (k : Z) : Q := Qpower 10 k.

(** Binary exponent of a positive rational: the [e] with
    [2^e <= q < 2^(e+1)]. *)
Definition ilog2 (q : Q) : Z :=
  let e0 := Z.log2 (Qnum q) - Z.log2 (Zpos (Qden q)) in
  if Qle_bool (pow2 e0) q then e0 else e0 - 1.

(** Magnitude rounded to a binary64 significand (53 bits, gradual
    underflow below [2^-1022]); no overflow check. *)
Definition round64_abs (a : Q) : Q :=
  let ex := Z.max (ilog2 a - 52) (-1074) in
  Qred (inject_Z (round_half_even (a / pow2 ex)) * pow2 ex).

(** Round-to-nearest-even into binary64, overflow not checked: used for
    arithmetic on clock readings and delays. *)
Definition round64 (q : Q) : Q :=
  match Qcompare q 0 with
  | Eq => 0
  | Gt => round64_abs q
  | Lt => - round64_abs (- q)
  end.

Definition fadd (a b : Q) : Q := round64 (a + b).
Definition fsub (a b : Q) : Q := round64 (a - b).
Definition fmul (a b : Q) : Q := round64 (a * b).
Definition fdiv (a b : Q) : Q := round64 (a / b).

(** A float as [float(str)] can produce it. *)
Inductive pyfloat : Type :=
  | FFinite (q : Q)
  | FInf (negative : bool)
  | FNan.

(** Decimal-to-binary64 conversion with overflow to infinity; the value is
    put in lowest terms first. *)
Definition to_float (q : Q) : pyfloat :=
  let c := Qred q in
  let r := round64 c in
  if Qle_bool (pow2 1024) (Qabs r) then FInf (ltb c 0) else FFinite r.

(** [int(x)] on a rational: truncation toward zero. *)
Definition trunc (q : Q) : Z := Z.quot (Qnum q) (Zpos (Qden q)).

End PyNum.

(** ** Exceptions *)

Inductive exn : Type :=
  | IOError
  | ValueError
  | OverflowError
  | AttributeError.

Inductive result (A : Type) : Type :=
  | Ok (a : A)
  | Raise (e : exn).
Arguments Ok {A} a.
Arguments Raise {A} e.

(** ** Python strings *)

Module PyStr.

Local Open Scope string_scope.
Local Open Scope char_scope.

Definition LF : ascii := "010".
Definition CR : ascii := "013".

(** [str.isspace] on the code points below 256: TAB..CR, FS..US, space,
    NEL and NBSP. *)
Definition isspace (c : ascii) : bool :=
  let n := N_of_ascii c in
  ((9 <=? n) && (n <=? 13) || (28 <=? n) && (n <=? 32)
   || (n =? 133) || (n =? 160))%N.

Fixpoint lstrip (s : string) : string :=
  match s with
  | String c r => if isspace c then lstrip r else s
  | EmptyString => EmptyString
  end.

Fixpoint rstrip (s : string) : string :=
  match s with
  | EmptyString => EmptyString
  | String c r =>
      match rstrip r with
      | EmptyString => if isspace c then EmptyString else String c EmptyString
      | r' => String c r'
      end
  end.

Definition strip (s : string) : string := rstrip (lstrip s).

(** [s.split(sep)] with an explicit one-character separator: never empty,
    adjacent separators give empty fields. *)
Fixpoint split (sep : ascii) (s : string) : list string :=
  match s with
  | EmptyString => [EmptyString]
  | String c r =>
      if Ascii.eqb c sep then EmptyString :: split sep r
      else match split sep r with
           | w :: ws => String c w :: ws
           | [] => [String c EmptyString]
           end
  end.

(** Text-mode reading with universal newlines: CR LF and CR become LF. *)
Fixpoint translate_newlines (s : string) : string :=
  match s with
  | EmptyString => EmptyString
  | String c r =>
      if Ascii.eqb c CR then
        match r with
        | String c' r' =>
            if Ascii.eqb c' LF then String LF (translate_newlines r')
            else String LF (translate_newlines r)
        | EmptyString => String LF EmptyString
        end
      else String c (translate_newlines r)
  end.

(** Lines with their terminators kept, as [f.readlines()] returns them. *)
Fixpoint splitlines_keepends (s : string) : list string :=
  match s with
  | EmptyString => []
  | String c r =>
      if Ascii.eqb c LF then String c EmptyString :: splitlines_keepends r
      else match splitlines_keepends r with
           | l :: ls => String c l :: ls
           | [] => [String c EmptyString]
           end
  end.

Definition readlines (content : string) : list string :=
  splitlines_keepends (translate_newlines content).

(** ASCII lower case, for the case-insensitive keywords of [float]. *)
Definition lower (c : ascii) : ascii :=
  let n := N_of_ascii c in
  if ((65 <=? n) && (n <=? 90))%N then ascii_of_N (n + 32) else c.

Fixpoint lower_str (s : string) : string :=
  match s with
  | EmptyString => EmptyString
  | String c r => String (lower c) (lower_str r)
  end.

Definition digit_val (c : ascii) : option Z :=
  let n := N_of_ascii c in
  if ((48 <=? n) && (n <=? 57))%N then Some (Z.of_N n - 48) else None.

(** The rest of a digit part, after its first digit: [(["_"] digit)*].
    Returns the value, the number of digits and the unread suffix. *)
Fixpoint digitpart_tail (s : string) (acc : Z) (n : nat) : Z * nat * string :=
  match s with
  | EmptyString => (acc, n, s)
  | String c r =>
      match digit_val c with
      | Some d => digitpart_tail r (10 * acc + d) (S n)
      | None =>
          if Ascii.eqb c "_" then
            match r with
            | String c2 r2 =>
                match digit_val c2 with
                | Some d => digitpart_tail r2 (10 * acc + d) (S n)
                | None => (acc, n, s)
                end
            | EmptyString => (acc, n, s)
            end
          else (acc, n, s)
      end
  end.

(** A digit part: [digit (["_"] digit)*]. *)
Definition digitpart (s : string) : option (Z * nat * string) :=
  match s with
  | String c r =>
      match digit_val c with
      | Some d => Some (digitpart_tail r d 1%nat)
      | None => None
      end
  | EmptyString => None
  end.

(** An optional sign. *)
Definition sign (s : string) : bool * string :=
  match s with
  | String c r =>
      if Ascii.eqb c "-" then (true, r)
      else if Ascii.eqb c "+" then (false, r)
      else (false, s)
  | EmptyString => (false, s)
  end.

(** [int(s)] on a string, base 10: surrounding whitespace, an optional
    sign, digits with single underscores between them.  [None] stands for
    [ValueError]. *)
Definition py_int (s : string) : option Z :=
  let (neg, body) := sign (strip s) in
  match digitpart body with
  | Some (v, _, EmptyString) => Some (if neg then - v else v)
  | _ => None
  end.

(** The exponent of a decimal float literal: nothing, or [e] / [E], an
    optional sign and a digit part, up to the end of the string. *)
Definition exponent (s : string) : option Z :=
  match s with
  | EmptyString => Some 0
  | String c r =>
      if Ascii.eqb (lower c) "e" then
        let (neg, body) := sign r in
        match digitpart body with
        | Some (v, _, EmptyString) => Some (if neg then - v else v)
        | _ => None
        end
      else None
  end.

(** The unsigned decimal literal of [float(s)]:
    [digitpart ["." [digitpart]] [exponent]] or ["." digitpart [exponent]].
    Returns the exact value. *)
Definition decimal (s : string) : option Q :=
  let finish (m : Z) (fn : nat) (rest : string) : option Q :=
    match exponent rest with
    | Some e => Some (inject_Z m * PyNum.pow10 (e - Z.of_nat fn))%Q
    | None => None
    end in
  match digitpart s with
  | Some (ip, _, String c rest) =>
      if Ascii.eqb c "." then
        match rest with
        | String c1 r1 =>
            match digit_val c1 with
            | Some d =>
                let '(m, fn, rest') :=
                  digitpart_tail r1 (10 * ip + d) 1%nat in
                finish m fn rest'
            | None => finish ip 0%nat rest
            end
        | EmptyString => finish ip 0%nat rest
        end
      else finish ip 0%nat (String c rest)
  | Some (ip, _, EmptyString) => finish ip 0%nat EmptyString
  | None =>
      match s with
      | String c rest =>
          if Ascii.eqb c "." then
            match digitpart rest with
            | Some (m, fn, rest') => finish m fn rest'
            | None => None
            end
          else None
      | EmptyString => None
      end
  end.

(** [float(s)] on a string: surrounding whitespace, an optional sign, then
    [inf], [infinity] or [nan] in any case, or a decimal literal, which is
    rounded to binary64 and overflows to infinity.  [None] stands for
    [ValueError]. *)
Definition py_float (s : string) : option PyNum.pyfloat :=
  let (neg, body) := sign (strip s) in
  let k := lower_str body in
  if (String.eqb k "inf" || String.eqb k "infinity")%bool then
    Some (PyNum.FInf neg)
  else if String.eqb k "nan" then Some PyNum.FNan
  else match decimal body with
       | Some q => Some (PyNum.to_float (if neg then - q else q)%Q)
       | None => None
       end.

(** [int(x)] on a float: truncation; infinities raise [OverflowError] and
    NaN raises [ValueError]. *)
Definition int_of_float (x : PyNum.pyfloat) : result Z :=
  match x with
  | PyNum.FFinite q => Ok (PyNum.trunc q)
  | PyNum.FInf _ => Raise OverflowError
  | PyNum.FNan => Raise ValueError
  end.

(** [str(n)] of an [int]. *)
Definition str_int (z : Z) : string := NilZero.string_of_int (Z.to_int z).

(** [n] decimal digits of [m], zero-padded on the left. *)
Fixpoint digits_padded (n : nat) (m : Z) : string :=
  match n with
  | O => EmptyString
  | S k => (digits_padded k (m / 10)
            ++ String (ascii_of_N (Z.to_N (m mod 10) + 48)) EmptyString)%string
  end.

(** The least number [f] of fractional digits, searched upward from [f],
    at which the magnitude [a] rounded to [f] decimals converts back to the
    same binary64 value; [fuel] bounds the search. *)
Fixpoint shortest_decimal (fuel : nat) (f : nat) (a : Q) : nat * Z :=
  let m := PyNum.round_half_even (a * PyNum.pow10 (Z.of_nat f)) in
  match fuel with
  | O => (f, m)
  | S fuel' =>
      if Qeq_bool (PyNum.round64 (inject_Z m * PyNum.pow10 (- Z.of_nat f)))
                  (PyNum.round64 a)
      then (f, m)
      else shortest_decimal fuel' (S f) a
  end.

(** [str(x)] of a float, in the fixed notation Python uses between [1e-4]
    and [1e16]: the shortest decimal that reads back as [x], with at least
    one fractional digit. *)
Definition str_float (q : Q) : string :=
  let (f, m) := shortest_decimal 24 0 (Qabs q) in
  let scale := 10 ^ Z.of_nat f in
  ((if PyNum.ltb q 0 then "-" else "")
   ++ str_int (m / scale) ++ "."
   ++ (match f with
       | O => "0"
       | S _ => digits_padded f (m mod scale)
       end))%string.

End PyStr.

(** ** The data model *)

(** The [time] field of an entry: an [int] when it was parsed from the
    file, the float the clock returned when the entry was just built. *)
Inductive stamp : Type :=
  | IntStamp (z : Z)
  | FloatStamp (q : Q).

Definition stamp_val (t : stamp) : Q :=
  match t with
  | IntStamp z => inject_Z z
  | FloatStamp q => q
  end.

Definition stamp_is_int (t : stamp) : bool :=
  match t with
  | IntStamp _ => true
  | FloatStamp _ => false
  end.

Definition str_stamp (t : stamp) : string :=
  match t with
  | IntStamp z => PyStr.str_int z
  | FloatStamp q => PyStr.str_float q
  end.

(** [ProcEntry = namedtuple('ProcEntry', ['pid', 'time', 'site'])] *)
Module ProcEntry.
Record t : Type := mk { pid : Z; time : stamp; site : string }.
End ProcEntry.

(** [FORMAT_LINE.format_map(p._asdict())] with
    [FORMAT_LINE = '{pid} {time} {site}\n']. *)
Definition FORMAT_LINE (p : ProcEntry.t) : string :=
  (PyStr.str_int (ProcEntry.pid p) ++ " " ++ str_stamp (ProcEntry.time p)
   ++ " " ++ ProcEntry.site p ++ String PyStr.LF "")%string.

(** The options of [pywikibot.config] the throttle reads. *)
Record Config : Type := {
  minthrottle : Q;
  maxthrottle : Q;
  put_throttle : Q;
  noisysleep : Q;
  retry_wait : Q;
  retry_max : Q
}.

(** The attributes of a [Throttle] object.  [process_multiplicity] exists
    only once [checkMultiplicity] has run. *)
Record Throttle : Type := mkThrottle {
  mysite : string;
  mindelay : Q;
  maxdelay : Q;
  writedelay : Q;
  last_read : Q;
  last_write : Q;
  next_multiplicity : Q;
  checkdelay : Q;
  dropdelay : Q;
  releasepid : Q;
  retry_after : Q;
  delay : Q;
  checktime : Q;
  multiplydelay : bool;
  process_multiplicity : option Z
}.

(** What an observer of the process can see it do. *)
Inductive event : Type :=
  | OpenRead (ok : bool)
  | OpenWrite (ok : bool)
  | Sleep (seconds : Q)
  | Output (seconds : Q)
  | Log (seconds : Q).

Definition is_file_io (e : event) : bool :=
  match e with
  | OpenRead _ | OpenWrite _ => true
  | _ => false
  end.

(** Everything outside the object: the module global [pid], the control
    file [throttle.ctrl] ([None] when it cannot be opened for reading),
    whether it can be opened for writing, the readings [time.time()] will
    return, and the events so far (latest first). *)
Record World : Type := mkWorld {
  pid : Z;
  ctrlfile : option string;
  writable : bool;
  clock : nat -> Q;
  ticks : nat;
  trace : list event
}.

Record State : Type := mkState { self : Throttle; world : World }.

(** ** The monad of methods *)

Definition M (A : Type) : Type := State -> result A * State.

Definition ret {A} (a : A) : M A := fun s => (Ok a, s).

Definition bind {A B} (m : M A) (k : A -> M B) : M B :=
  fun s =>
    match m s with
    | (Ok a, s') => k a s'
    | (Raise e, s') => (Raise e, s')
    end.

Definition raise {A} (e : exn) : M A := fun s => (Raise e, s).

(** [try: m  except e: handler] *)
Definition try_except {A} (m : M A) (e : exn -> bool) (handler : M A) : M A :=
  fun s =>
    match m s with
    | (Raise x, s') => if e x then handler s' else (Raise x, s')
    | r => r
    end.

Definition lift {A} (r : result A) : M A := fun s => (r, s).

Declare Scope py_scope.
Delimit Scope py_scope with py.
Notation "x <- m ;; k" := (bind m (fun x => k))
  (at level 61, m at next level, right associativity) : py_scope.
Notation "m ;;; k" := (bind m (fun _ => k))
  (at level 61, right associativity) : py_scope.
Local Open Scope py_scope.

Definition get_self : M Throttle := fun s => (Ok (self s), s).
Definition get_pid : M Z := fun s => (Ok (pid (world s)), s).

Definition update (f : Throttle -> Throttle) : M unit :=
  fun s => (Ok tt, mkState (f (self s)) (world s)).

Definition with_trace (f : list event -> list event) (w : World) : World :=
  mkWorld (pid w) (ctrlfile w) (writable w) (clock w) (ticks w) (f (trace w)).

Definition with_pid (v : Z) (w : World) : World :=
  mkWorld v (ctrlfile w) (writable w) (clock w) (ticks w) (trace w).

Definition with_ctrlfile (content : string) (w : World) : World :=
  mkWorld (pid w) (Some content) (writable w) (clock w) (ticks w) (trace w).

Definition tick (w : World) : World :=
  mkWorld (pid w) (ctrlfile w) (writable w) (clock w) (S (ticks w)) (trace w).

Definition on_world (f : World -> World) : M unit :=
  fun s => (Ok tt, mkState (self s) (f (world s))).

Definition event_emit (e : event) : M unit := on_world (with_trace (cons e)).

(** [global pid; pid = v] *)
Definition set_pid (v : Z) : M unit := on_world (with_pid v).

(** [time.time()] *)
Definition time_time : M Q :=
  fun s => (Ok (clock (world s) (ticks (world s))),
            mkState (self s) (tick (world s))).

(** [with open(self.ctrlfilename, 'r') as f: f.read()] *)
Definition open_read : M string :=
  fun s =>
    match ctrlfile (world s) with
    | Some content => (event_emit (OpenRead true) ;;; ret content) s
    | None => (event_emit (OpenRead false) ;;; raise IOError) s
    end.

(** [with open(self.ctrlfilename, 'w') as f: f.write(content)] *)
Definition open_write (content : string) : M unit :=
  fun s =>
    if writable (world s) then
      (event_emit (OpenWrite true) ;;; on_world (with_ctrlfile content)) s
    else (event_emit (OpenWrite false) ;;; raise IOError) s.

(** Attribute assignments. *)
Definition set_checktime (v : Q) (t : Throttle) : Throttle :=
  mkThrottle (mysite t) (mindelay t) (maxdelay t) (writedelay t) (last_read t)
    (last_write t) (next_multiplicity t) (checkdelay t) (dropdelay t)
    (releasepid t) (retry_after t) (delay t) v (multiplydelay t)
    (process_multiplicity t).

Definition set_process_multiplicity (v : Z) (t : Throttle) : Throttle :=
  mkThrottle (mysite t) (mindelay t) (maxdelay t) (writedelay t) (last_read t)
    (last_write t) (next_multiplicity t) (checkdelay t) (dropdelay t)
    (releasepid t) (retry_after t) (delay t) (checktime t) (multiplydelay t)
    (Some v).

Definition set_mindelay (v : Q) (t : Throttle) : Throttle :=
  mkThrottle (mysite t) v (maxdelay t) (writedelay t) (last_read t)
    (last_write t) (next_multiplicity t) (checkdelay t) (dropdelay t)
    (releasepid t) (retry_after t) (delay t) (checktime t) (multiplydelay t)
    (process_multiplicity t).

Definition set_maxdelay (v : Q) (t : Throttle) : Throttle :=
  mkThrottle (mysite t) (mindelay t) v (writedelay t) (last_read t)
    (last_write t) (next_multiplicity t) (checkdelay t) (dropdelay t)
    (releasepid t) (retry_after t) (delay t) (checktime t) (multiplydelay t)
    (process_multiplicity t).

Definition set_delay (v : Q) (t : Throttle) : Throttle :=
  mkThrottle (mysite t) (mindelay t) (maxdelay t) (writedelay t) (last_read t)
    (last_write t) (next_multiplicity t) (checkdelay t) (dropdelay t)
    (releasepid t) (retry_after t) v (checktime t) (multiplydelay t)
    (process_multiplicity t).

Definition set_writedelay (v : Q) (t : Throttle) : Throttle :=
  mkThrottle (mysite t) (mindelay t) (maxdelay t) v (last_read t)
    (last_write t) (next_multiplicity t) (checkdelay t) (dropdelay t)
    (releasepid t) (retry_after t) (delay t) (checktime t) (multiplydelay t)
    (process_multiplicity t).

Definition set_last_read (v : Q) (t : Throttle) : Throttle :=
  mkThrottle (mysite t) (mindelay t) (maxdelay t) (writedelay t) v
    (last_write t) (next_multiplicity t) (checkdelay t) (dropdelay t)
    (releasepid t) (retry_after t) (delay t) (checktime t) (multiplydelay t)
    (process_multiplicity t).

Definition set_last_write (v : Q) (t : Throttle) : Throttle :=
  mkThrottle (mysite t) (mindelay t) (maxdelay t) (writedelay t) (last_read t)
    v (next_multiplicity t) (checkdelay t) (dropdelay t)
    (releasepid t) (retry_after t) (delay t) (checktime t) (multiplydelay t)
    (process_multiplicity t).

(** [self.retry_after = v], as [http.request] assigns it. *)
Definition set_retry_after (v : Q) (t : Throttle) : Throttle :=
  mkThrottle (mysite t) (mindelay t) (maxdelay t) (writedelay t) (last_read t)
    (last_write t) (next_multiplicity t) (checkdelay t) (dropdelay t)
    (releasepid t) v (delay t) (checktime t) (multiplydelay t)
    (process_multiplicity t).

Definition set_next_multiplicity (v : Q) (t : Throttle) : Throttle :=
  mkThrottle (mysite t) (mindelay t) (maxdelay t) (writedelay t) (last_read t)
    (last_write t) v (checkdelay t) (dropdelay t)
    (releasepid t) (retry_after t) (delay t) (checktime t) (multiplydelay t)
    (process_multiplicity t).

(** ** Registry store *)

(** One line of the control file:
    [_pid, _time, _site = line.split(' ')] and then
    [ProcEntry(pid=int(_pid), time=int(float(_time)), site=_site.rstrip())],
    with the exception the statement raises. *)
Definition parse_line (line : string) : result ProcEntry.t :=
  match PyStr.split " " line with
  | [_pid; _time; _site] =>
      match PyStr.py_int _pid with
      | None => Raise ValueError
      | Some p =>
          match PyStr.py_float _time with
          | None => Raise ValueError
          | Some x =>
              match PyStr.int_of_float x with
              | Raise e => Raise e
              | Ok z => Ok (ProcEntry.mk p (IntStamp z) (PyStr.rstrip _site))
              end
          end
      end
  | _ => Raise ValueError
  end.

(** The loop of [_read_file]: [except (IndexError, ValueError): continue];
    any other exception ends the iteration. *)
Fixpoint parse_lines (lines : list string) : result (list ProcEntry.t) :=
  match lines with
  | [] => Ok []
  | line :: rest =>
      match parse_line line with
      | Ok proc_entry =>
          match parse_lines rest with
          | Ok entries => Ok (proc_entry :: entries)
          | Raise e => Raise e
          end
      | Raise ValueError => parse_lines rest
      | Raise e => Raise e
      end
  end.

Definition is_IOError (e : exn) : bool :=
  match e with
  | IOError => true
  | _ => false
  end.

(** [Throttle._read_file].  Both callers consume the generator to its end
    in loops that assign local variables only, so the entries are returned
    as a list, or the exception that interrupts the iteration is raised. *)
Definition _read_file (raise_exc : bool) : M (list ProcEntry.t) :=
  lines <- try_except
             (content <- open_read ;; ret (Some (PyStr.readlines content)))
             is_IOError
             (g <- get_pid ;;
              if raise_exc && PyNum.truthyZ g then raise IOError
              else ret None) ;;
  match lines with
  | None => ret []
  | Some lines => lift (parse_lines lines)
  end.

(** The sort key [(p.pid, p.site)], compared as Python compares tuples. *)
Definition key_le (p q : ProcEntry.t) : bool :=
  (ProcEntry.pid p <? ProcEntry.pid q)
  || (ProcEntry.pid p =? ProcEntry.pid q)
     && String.leb (ProcEntry.site p) (ProcEntry.site q).

Fixpoint insert (p : ProcEntry.t) (l : list ProcEntry.t) : list ProcEntry.t :=
  match l with
  | [] => [p]
  | q :: r => if key_le p q then p :: l else q :: insert p r
  end.

(** [processes.sort(key=lambda p: (p.pid, p.site))]: a stable sort. *)
Definition sort (processes : list ProcEntry.t) : list ProcEntry.t :=
  fold_right insert [] processes.

(** What [for p in processes: f.write(FORMAT_LINE.format_map(...))] puts
    into the file. *)
Definition render (processes : list ProcEntry.t) : string :=
  String.concat "" (map FORMAT_LINE processes).

(** [Throttle._write_file] *)
Definition _write_file (processes : list ProcEntry.t) : M unit :=
  let processes := sort processes in
  try_except (open_write (render processes)) is_IOError (ret tt).

(** ** Process registry *)

(** The local variables of [checkMultiplicity]. *)
Record locals : Type := mkLocals {
  processes : list ProcEntry.t;
  count : Z;
  my_pid : Z
}.

(** The body of the [for proc in ...] loop of [checkMultiplicity]; [g] is
    the global [pid]. *)
Definition check_body (t : Throttle) (g : Z) (now : Q)
    (l : locals) (proc : ProcEntry.t) : locals :=
  let age := PyNum.fsub now (stamp_val (ProcEntry.time proc)) in
  if PyNum.gtb age (releasepid t) then l
  else
    let count' :=
      if PyNum.leb age (dropdelay t)
         && String.eqb (ProcEntry.site proc) (mysite t)
         && negb (ProcEntry.pid proc =? g)
      then count l + 1 else count l in
    let processes' :=
      if negb (String.eqb (ProcEntry.site proc) (mysite t))
         || negb (ProcEntry.pid proc =? g)
      then processes l ++ [proc] else processes l in
    let my_pid' :=
      if negb (PyNum.truthyZ g) && (my_pid l <=? ProcEntry.pid proc)
      then ProcEntry.pid proc + 1 else my_pid l in
    mkLocals processes' count' my_pid'.

(** The whole loop, from the initial values [processes = []],
    [my_pid = pid or 1] and [count = 1]. *)
Definition scan (t : Throttle) (g : Z) (now : Q) (procs : list ProcEntry.t)
    : locals :=
  fold_left (check_body t g now) procs
    (mkLocals [] 1 (if PyNum.truthyZ g then g else 1)).

(** [Throttle.checkMultiplicity] *)
Definition checkMultiplicity : M unit :=
  t <- get_self ;;
  g <- get_pid ;;
  now <- time_time ;;
  procs <- _read_file true ;;
  let l := scan t g now procs in
  (if negb (PyNum.truthyZ g) then set_pid (my_pid l) else ret tt) ;;;
  g' <- get_pid ;;
  ct <- time_time ;;
  update (set_checktime ct) ;;;
  _write_file (processes l ++ [ProcEntry.mk g' (FloatStamp ct) (mysite t)]) ;;;
  update (set_process_multiplicity (count l)).

(** [Throttle.drop] *)
Definition drop : M unit :=
  update (set_checktime 0) ;;;
  now <- time_time ;;
  procs <- _read_file false ;;
  t <- get_self ;;
  g <- get_pid ;;
  _write_file
    (filter (fun p =>
               PyNum.leb (PyNum.fsub now (stamp_val (ProcEntry.time p)))
                         (releasepid t)
               && negb (ProcEntry.pid p =? g))
            procs).

Section Methods.

Variable config : Config.

(** [math.log], the natural logarithm of the platform. *)
Variable math_log : Q -> Q.

(** ** Delay calculator *)

(** [Throttle.setDelays] *)
Definition setDelays (delay writedelay : option Q) (absolute : bool) : M unit :=
  t <- get_self ;;
  let delay := PyNum.opt_or delay (mindelay t) in
  let writedelay := PyNum.opt_or writedelay (put_throttle config) in
  (if absolute then
     update (set_maxdelay delay) ;;; update (set_mindelay delay)
   else ret tt) ;;;
  update (set_delay delay) ;;;
  t <- get_self ;;
  update (set_writedelay
            (PyNum.min (PyNum.max (mindelay t) writedelay) (maxdelay t))) ;;;
  now <- time_time ;;
  update (set_last_read now) ;;;
  update (set_last_write now).

(** [Throttle.__init__] *)
Definition __init__ (site : string) (mindelay maxdelay writedelay : option Q)
    (multiplydelay : bool) : M unit :=
  update (fun _ =>
    {| mysite := site;
       mindelay := PyNum.opt_or mindelay (minthrottle config);
       maxdelay := PyNum.opt_or maxdelay (maxthrottle config);
       writedelay := PyNum.opt_or writedelay (put_throttle config);
       last_read := 0;
       last_write := 0;
       next_multiplicity := 1;
       checkdelay := 300;
       dropdelay := 600;
       releasepid := 1200;
       retry_after := 0;
       delay := 0;
       checktime := 0;
       multiplydelay := multiplydelay;
       process_multiplicity := None |}) ;;;
  (if multiplydelay then checkMultiplicity else ret tt) ;;;
  setDelays None None false.

(** Reading [self.process_multiplicity]. *)
Definition get_process_multiplicity : M Z :=
  t <- get_self ;;
  match process_multiplicity t with
  | Some n => ret n
  | None => raise AttributeError
  end.

(** The two-sided adjustment of [getDelay]. *)
Definition clamp (t : Throttle) (thisdelay : Q) : Q :=
  let floor := PyNum.fmul (mindelay t) (next_multiplicity t) in
  if PyNum.ltb thisdelay floor then floor
  else if PyNum.gtb thisdelay (maxdelay t) then maxdelay t
  else thisdelay.

(** [Throttle.getDelay] *)
Definition getDelay (write : bool) : M Q :=
  t <- get_self ;;
  let thisdelay := if write then writedelay t else delay t in
  if negb (multiplydelay t) then ret thisdelay
  else
    now <- time_time ;;
    (if PyNum.gtb now (PyNum.fadd (checktime t) (checkdelay t))
     then checkMultiplicity else ret tt) ;;;
    t <- get_self ;;
    let thisdelay := clamp t thisdelay in
    n <- get_process_multiplicity ;;
    ret (PyNum.fmul thisdelay (inject_Z n)).

(** [Throttle.waittime] *)
Definition waittime (write : bool) : M Q :=
  thisdelay <- getDelay write ;;
  now <- time_time ;;
  t <- get_self ;;
  let ago := PyNum.fsub now (if write then last_write t else last_read t) in
  ret (PyNum.max 0 (PyNum.fsub thisdelay ago)).

(** ** Throttle gate *)

(** [Throttle.wait] *)
Definition wait (seconds : Q) : M unit :=
  if PyNum.leb seconds 0 then ret tt
  else
    (if PyNum.gtb seconds (noisysleep config)
     then event_emit (Output seconds)
     else event_emit (Log seconds)) ;;;
    event_emit (Sleep seconds).

(** [math.log(1 + requestsize) / math.log(2.0)] *)
Definition log2_1p (requestsize : Z) : Q :=
  PyNum.fdiv (math_log (inject_Z (1 + requestsize))) (math_log 2).

(** [Throttle.__call__] *)
Definition __call__ (requestsize : Z) (write : bool) : M unit :=
  wait_ <- waittime write ;;
  update (set_next_multiplicity (log2_1p requestsize)) ;;;
  wait wait_ ;;;
  now <- time_time ;;
  if write then update (set_last_write now)
  else update (set_last_read now).

(** ** Lag controller *)

(** [Throttle.lag] *)
Definition lag (lagtime : option Q) : M unit :=
  started <- time_time ;;
  t <- get_self ;;
  let waittime := PyNum.opt_or lagtime (retry_wait config) in
  let waittime :=
    if PyNum.truthy (retry_after t)
    then PyNum.max (retry_after t) (PyNum.fdiv waittime 5)
    else waittime in
  let delay := PyNum.min waittime (retry_max config) in
  now <- time_time ;;
  let wait_ := PyNum.fsub delay (PyNum.fsub now started) in
  wait wait_.

End Methods.

(** * Vocabulary of the specification *)

(** ** States *)

Definition emit (e : event) (s : State) : State :=
  mkState (self s) (with_trace (cons e) (world s)).

Definition ticked (s : State) : State := mkState (self s) (tick (world s)).

(** What [_read_file] yields in a given world. *)
Definition registry (raise_exc : bool) (w : World)
    : result (list ProcEntry.t) :=
  match ctrlfile w with
  | Some content => parse_lines (PyStr.readlines content)
  | None => if raise_exc && PyNum.truthyZ (pid w) then Raise IOError else Ok []
  end.

Definition readable (w : World) : bool :=
  match ctrlfile w with
  | Some _ => true
  | None => false
  end.

(** The state a write leaves. *)
Definition written (ps : list ProcEntry.t) (s : State) : State :=
  if writable (world s) then
    mkState (self s)
      (with_ctrlfile (render (sort ps))
         (with_trace (cons (OpenWrite true)) (world s)))
  else emit (OpenWrite false) s.

(** The state a successful refresh leaves, from the entries read. *)
Definition refreshed (s : State) (procs : list ProcEntry.t) : State :=
  let t := self s in
  let g := pid (world s) in
  let now := clock (world s) (ticks (world s)) in
  let l := scan t g now procs in
  let g' := if PyNum.truthyZ g then g else my_pid l in
  let ct := clock (world s) (S (ticks (world s))) in
  let s1 := emit (OpenRead (readable (world s)))
              (mkState t (tick (world s))) in
  let s2 := mkState (set_checktime ct t) (tick (with_pid g' (world s1))) in
  let s3 :=
    written (processes l ++ [ProcEntry.mk g' (FloatStamp ct) (mysite t)]) s2 in
  mkState (set_process_multiplicity (count l) (self s3)) (world s3).

(** A refresh is due: [time.time() > self.checktime + self.checkdelay]
    at the next clock reading. *)
Definition refresh_due (s : State) : bool :=
  PyNum.gtb (clock (world s) (ticks (world s)))
            (PyNum.fadd (checktime (self s)) (checkdelay (self s))).

(** [getDelay] gets through: the refresh it starts can read the registry,
    or, when none is due, a multiplicity has been recorded. *)
Definition can_delay (s : State) : bool :=
  if refresh_due s then
    match registry true (world s) with
    | Ok _ => true
    | Raise _ => false
    end
  else
    match process_multiplicity (self s) with
    | Some _ => true
    | None => false
    end.

(** ** Frames *)

(** The events [evs] were added to the trace between [s] and [s']. *)
Definition added_events (s s' : State) (evs : list event) : Prop :=
  trace (world s') = evs ++ trace (world s).

(** The part of the state [getDelay] never changes: no sleep, and the
    stamps and the adaptation factor stay. *)
Definition delay_frame (s s' : State) : Prop :=
  (exists evs, added_events s s' evs
               /\ forall e, In e evs -> is_file_io e = true)
  /\ last_read (self s') = last_read (self s)
  /\ last_write (self s') = last_write (self s)
  /\ next_multiplicity (self s') = next_multiplicity (self s).

(** Nothing but the clock moved. *)
Definition untouched (s s' : State) : Prop :=
  self s' = self s
  /\ pid (world s') = pid (world s)
  /\ ctrlfile (world s') = ctrlfile (world s)
  /\ trace (world s') = trace (world s).

(** A relation between the state before and after holds for every run of
    a method. *)
Definition preserves {A : Type} (R : State -> State -> Prop) (m : M A)
    : Prop :=
  forall s : State, R s (snd (m s)).

(** An allocated process id stays. *)
Definition pid_kept (s s' : State) : Prop :=
  pid (world s) <> 0 -> pid (world s') = pid (world s).

(** Between [s] and [s'] the control file was neither opened nor changed. *)
Definition file_quiet (s s' : State) : Prop :=
  ctrlfile (world s') = ctrlfile (world s)
  /\ exists evs : list event,
       added_events s s' evs
       /\ forall e, In e evs -> is_file_io e = false.

(** The same, for a throttle in single-process mode, which it stays in. *)
Definition quiet_single (s s' : State) : Prop :=
  multiplydelay (self s) = false ->
  multiplydelay (self s') = false /\ file_quiet s s'.

(** The adaptation factor stays. *)
Definition factor_kept (s s' : State) : Prop :=
  next_multiplicity (self s') = next_multiplicity (self s).

(** The events of [wait(w)], latest first. *)
Definition wait_events (config : Config) (w : Q) : list event :=
  if PyNum.leb w 0 then []
  else [Sleep w; if PyNum.gtb w (noisysleep config) then Output w else Log w].

(** ** The scan of the registry *)

Section ScanVocabulary.

Variables (t : Throttle) (g : Z) (now : Q).

(** Age of an entry as the loop computes it. *)
Definition age (p : ProcEntry.t) : Q :=
  PyNum.fsub now (stamp_val (ProcEntry.time p)).

(** Strictly older than [releasepid]. *)
Definition expired (p : ProcEntry.t) : bool :=
  PyNum.gtb (age p) (releasepid t).

(** Not older than [releasepid]. *)
Definition live (p : ProcEntry.t) : bool := negb (expired p).

(** Counted toward the multiplicity: at most [dropdelay] old, for this
    site, with another pid. *)
Definition is_peer (p : ProcEntry.t) : bool :=
  PyNum.leb (age p) (dropdelay t)
  && String.eqb (ProcEntry.site p) (mysite t)
  && negb (ProcEntry.pid p =? g).

(** Kept for the rewritten file: not expired, and not this process's
    entry for this site. *)
Definition retained (p : ProcEntry.t) : bool :=
  negb (expired p)
  && (negb (String.eqb (ProcEntry.site p) (mysite t))
      || negb (ProcEntry.pid p =? g)).

(** What [drop] keeps: entries not older than [releasepid] that belong to
    other processes. *)
Definition survives_drop (p : ProcEntry.t) : bool :=
  PyNum.leb (PyNum.fsub now (stamp_val (ProcEntry.time p))) (releasepid t)
  && negb (ProcEntry.pid p =? g).

(** The id after the live entries [l]: above each of their pids, and at
    least [m]. *)
Definition next_pid (m : Z) (l : list ProcEntry.t) : Z :=
  fold_left (fun m p => Z.max m (ProcEntry.pid p + 1)) l m.

End ScanVocabulary.

(** ** The lag *)

(** The hint [lag] works from: [lagtime or config.retry_wait]. *)
Definition effective_hint (config : Config) (lagtime : option Q) : Q :=
  match lagtime with
  | Some h => if Qeq_bool h 0 then retry_wait config else h
  | None => retry_wait config
  end.

(** The wait [lag] intends, before the cap and before the time spent so
    far is taken off. *)
Definition intended_wait (config : Config) (t : Throttle)
    (lagtime : option Q) : Q :=
  let h := effective_hint config lagtime in
  if Qeq_bool (retry_after t) 0 then h
  else PyNum.max (retry_after t) (PyNum.fdiv h 5).

(** ** The text of the registry *)

Definition nonspace (c : ascii) : bool := negb (PyStr.isspace c).

Definition not_char (x : ascii) (c : ascii) : bool := negb (Ascii.eqb c x).

(** Characters of numerals: digits, the sign and the decimal point. *)
Definition numeric (c : ascii) : bool :=
  match PyStr.digit_val c with
  | Some _ => true
  | None => Ascii.eqb c "-" || Ascii.eqb c "."
  end.

(** Every character of [s] satisfies [P]. *)
Fixpoint string_forall (P : ascii -> bool) (s : string) : bool :=
  match s with
  | EmptyString => true
  | String c r => P c && string_forall P r
  end.

(** The value of a decimal numeral read after the digits worth [acc]. *)
Fixpoint uint_val (u : Decimal.uint) (acc : Z) : Z :=
  match u with
  | Decimal.Nil => acc
  | Decimal.D0 l => uint_val l (10 * acc + 0)
  | Decimal.D1 l => uint_val l (10 * acc + 1)
  | Decimal.D2 l => uint_val l (10 * acc + 2)
  | Decimal.D3 l => uint_val l (10 * acc + 3)
  | Decimal.D4 l => uint_val l (10 * acc + 4)
  | Decimal.D5 l => uint_val l (10 * acc + 5)
  | Decimal.D6 l => uint_val l (10 * acc + 6)
  | Decimal.D7 l => uint_val l (10 * acc + 7)
  | Decimal.D8 l => uint_val l (10 * acc + 8)
  | Decimal.D9 l => uint_val l (10 * acc + 9)
  end.

(** Sorted by [(pid, site)]: the pids ascend, and among equal pids the
    sites ascend in the order of strings. *)
Definition key_order (p q : ProcEntry.t) : Prop :=
  ProcEntry.pid p < ProcEntry.pid q
  \/ (ProcEntry.pid p = ProcEntry.pid q
      /\ String.leb (ProcEntry.site p) (ProcEntry.site q) = true).

(** The [(pid, site)] pair of an entry, and the order of such pairs. *)
Definition pid_site (p : ProcEntry.t) : Z * string :=
  (ProcEntry.pid p, ProcEntry.site p).

Definition pair_order (a b : Z * string) : Prop :=
  fst a < fst b \/ (fst a = fst b /\ String.leb (snd a) (snd b) = true).

(** One line of the file, field by field. *)
Definition line_of (p : ProcEntry.t) : string :=
  (PyStr.str_int (ProcEntry.pid p) ++ " "
   ++ str_stamp (ProcEntry.time p) ++ " "
   ++ ProcEntry.site p ++ String PyStr.LF "")%string.

(** The stamp, as written, reads back as a number: [int(float(...))]
    returns. *)
Definition stamp_reads (t : stamp) : Prop :=
  exists (x : PyNum.pyfloat) (z : Z),
    PyStr.py_float (str_stamp t) = Some x /\ PyStr.int_of_float x = Ok z.

(** A well-formed entry: a stamp that reads back, and a site that is a
    token without whitespace. *)
Definition well_formed (p : ProcEntry.t) : Prop :=
  stamp_reads (ProcEntry.time p)
  /\ string_forall nonspace (ProcEntry.site p) = true.

(** ** Example runs *)

(** The defaults of [pywikibot.config]: [minthrottle = 0],
    [maxthrottle = 60], [put_throttle = 10], [noisysleep = 3.0],
    [retry_wait = 5], [retry_max = 120]. *)
Definition default_config : Config :=
  {| minthrottle := 0; maxthrottle := 60; put_throttle := 10;
     noisysleep := 3; retry_wait := 5; retry_max := 120 |}.

(** An object that [__init__] has not filled in yet. *)
Definition blank : Throttle :=
  {| mysite := ""; mindelay := 0; maxdelay := 0; writedelay := 0;
     last_read := 0; last_write := 0; next_multiplicity := 0;
     checkdelay := 0; dropdelay := 0; releasepid := 0; retry_after := 0;
     delay := 0; checktime := 0; multiplydelay := false;
     process_multiplicity := None |}.

(** A process that has just started: no id, nothing done; [file] is the
    control file it finds, [clock] what its clock will read. *)
Definition start (file : option string) (clock : nat -> Q) : State :=
  mkState blank (mkWorld 0 file true clock 0 []).

(** [Throttle('wiki', mindelay=5, maxdelay=20)] and
    [Throttle('wiki', mindelay=5, maxdelay=20, multiplydelay=False)]. *)
Definition new_throttle (s : State) : State :=
  snd (__init__ default_config "wiki" (Some 5%Q) (Some 20%Q) None true s).

Definition new_single_throttle (s : State) : State :=
  snd (__init__ default_config "wiki" (Some 5%Q) (Some 20%Q) None false s).

(** Another process, or an accident, puts [content] into the control
    file, or removes the file. *)
Definition overwritten (content : string) (s : State) : State :=
  mkState (self s) (with_ctrlfile content (world s)).

Definition unlinked (s : State) : State :=
  mkState (self s)
    (mkWorld (pid (world s)) None (writable (world s)) (clock (world s))
             (ticks (world s)) (trace (world s))).

(** Clocks: one that always reads [100], one that always reads [5000], one
    that always reads [1000.5], and one that reads [0] while the throttle
    is built (three readings) and [1000] afterwards. *)
Definition still_clock (n : nat) : Q := 100.
Definition busy_clock (n : nat) : Q := 5000.
Definition half_clock (n : nat) : Q := 2001 # 2.
Definition late_clock (n : nat) : Q := if (n <? 3)%nat then 0 else 1000.

(** The first throttle of a process, built at time 100 where there was no
    control file. *)
Definition calm_state : State := new_throttle (start None still_clock).

(** The same throttle after [__call__(requestsize=63)], which left
    [next_multiplicity = log(64) / log(2) = 6.0]. *)
Definition burst_state : State :=
  mkState (set_next_multiplicity 6 (self calm_state)) (world calm_state).

(** The same throttle after the server answered with [Retry-After: 10]
    and [http.request] recorded it. *)
Definition lagged_state : State :=
  mkState (set_retry_after 10 (self calm_state)) (world calm_state).

(** The same throttle after the control file was removed. *)
Definition orphan_state : State := unlinked calm_state.

(** A throttle built at time 0 and next used at time 1000. *)
Definition late_state : State := new_throttle (start None late_clock).

(** A control file shared with other processes: a fresh peer on [wiki],
    a peer silent for 900 seconds, an entry 4900 seconds old, a process on
    another site, and this process's own previous entry. *)
Definition shared_file : string :=
  ("2 4900 wiki" ++ String PyStr.LF
   ("3 4100 wiki" ++ String PyStr.LF
    ("4 100 wiki" ++ String PyStr.LF
     ("2 4900 other" ++ String PyStr.LF
      ("1 4000 wiki" ++ String PyStr.LF "")))))%string.

Definition shared_entries : list ProcEntry.t :=
  [ ProcEntry.mk 2 (IntStamp 4900) "wiki";
    ProcEntry.mk 3 (IntStamp 4100) "wiki";
    ProcEntry.mk 4 (IntStamp 100) "wiki";
    ProcEntry.mk 2 (IntStamp 4900) "other";
    ProcEntry.mk 1 (IntStamp 4000) "wiki" ].

(** Process [1] on [wiki] at time 5000, when the control file reads as
    above. *)
Definition shared_state : State :=
  overwritten shared_file (new_throttle (start None busy_clock)).

(** A throttle in single-process mode, built at time 5000 next to that
    control file by a process that never allocated an id. *)
Definition single_state : State :=
  new_single_throttle (start (Some shared_file) busy_clock).

(** A control file whose only entry, of pid 7, is 4900 seconds old at
    time 5000. *)
Definition stale_file : string := ("7 100 other" ++ String PyStr.LF "")%string.

(** A control file with a line whose time field is [inf], followed by a
    well-formed line. *)
Definition corrupt_file : string :=
  ("1 inf wiki" ++ String PyStr.LF
   ("2 4900 wiki" ++ String PyStr.LF ""))%string.

(** Process [1] on [wiki] at time 5000, after the control file got
    corrupted. *)
Definition corrupt_state : State :=
  overwritten corrupt_file (new_throttle (start None busy_clock)).

(** ** More vocabulary *)

(** The entries of the lines that parse, in the order of the lines. *)
Definition parsed_entries (lines : list string) : list ProcEntry.t :=
  flat_map (fun line => match parse_line line with
                        | Ok proc_entry => [proc_entry]
                        | Raise _ => []
                        end) lines.

(** The control file can no longer be opened for writing. *)
Definition read_only (s : State) : State :=
  mkState (self s)
    (mkWorld (pid (world s)) (ctrlfile (world s)) false (clock (world s))
             (ticks (world s)) (trace (world s))).

(** The entry of process [g] for the site of [t]. *)
Definition is_own (t : Throttle) (g : Z) (p : ProcEntry.t) : bool :=
  (ProcEntry.pid p =? g) && String.eqb (ProcEntry.site p) (mysite t).

(** * Properties *)

(** ** Running the primitives *)

Lemma read_file_eq (raise_exc : bool) (s : State) :
  _read_file raise_exc s =
  (registry raise_exc (world s), emit (OpenRead (readable (world s))) s).
Proof.
  unfold _read_file, registry, readable, bind, try_except, open_read.
  destruct s as [t w]; simpl.
  destruct (ctrlfile w) as [content|] eqn:E; simpl.
  - unfold lift. reflexivity.
  - unfold get_pid; simpl.
    destruct (raise_exc && PyNum.truthyZ (pid w)); reflexivity.
Qed.

Lemma write_file_eq (ps : list ProcEntry.t) (s : State) :
  _write_file ps s = (Ok tt, written ps s).
Proof.
  unfold _write_file, written, try_except, open_write.
  destruct s as [t w]; simpl.
  destruct (writable w); reflexivity.
Qed.

Lemma checkMultiplicity_eq (s : State) :
  checkMultiplicity s =
  match registry true (world s) with
  | Ok procs => (Ok tt, refreshed s procs)
  | Raise e =>
      (Raise e, emit (OpenRead (readable (world s)))
                  (mkState (self s) (tick (world s))))
  end.
Proof.
  unfold checkMultiplicity, bind at 1 2 3; simpl.
  unfold bind at 1. rewrite read_file_eq; simpl.
  unfold registry, readable; simpl.
  destruct s as [t w]; simpl.
  destruct (match ctrlfile w with
            | Some content => parse_lines (PyStr.readlines content)
            | None => if PyNum.truthyZ (pid w) then Raise IOError else Ok []
            end) as [procs|e] eqn:E; [|reflexivity].
  unfold refreshed; simpl.
  unfold bind, set_pid, on_world, get_pid, time_time, update, ret; simpl.
  destruct (PyNum.truthyZ (pid w)) eqn:G; simpl;
    rewrite write_file_eq; reflexivity.
Qed.

(** ** The loop of [checkMultiplicity] *)

Section Scan.

Variables (t : Throttle) (g : Z) (now : Q).

Lemma scan_from (procs : list ProcEntry.t) (l : locals) :
  fold_left (check_body t g now) procs l =
  mkLocals
    (processes l ++ filter (retained t g now) procs)
    (count l
     + Z.of_nat (List.length
         (filter (fun p => negb (expired t now p) && is_peer t g now p)
                 procs)))
    (if PyNum.truthyZ g then my_pid l
     else next_pid (my_pid l) (filter (fun p => negb (expired t now p)) procs)).
Proof.
  revert l; induction procs as [|p procs IH]; intros l; simpl.
  - rewrite List.app_nil_r, Z.add_0_r.
    destruct l, (PyNum.truthyZ g); reflexivity.
  - rewrite IH; clear IH.
    unfold check_body, retained, is_peer, expired, age.
    destruct (PyNum.gtb _ (releasepid t)); simpl; [reflexivity|].
    f_equal.
    + destruct (negb _ || negb _); simpl; [rewrite <- List.app_assoc|];
        reflexivity.
    + destruct (PyNum.leb _ _ && _ && _); simpl List.length; lia.
    + destruct (PyNum.truthyZ g); simpl; [reflexivity|].
      f_equal. destruct (Z.leb_spec (my_pid l) (ProcEntry.pid p)); lia.
Qed.

Lemma next_pid_ge (l : list ProcEntry.t) (m : Z) : m <= next_pid m l.
Proof.
  unfold next_pid.
  revert m; induction l as [|p l IH]; intros m; simpl; [lia|].
  specialize (IH (Z.max m (ProcEntry.pid p + 1))). lia.
Qed.

Lemma next_pid_above (l : list ProcEntry.t) (m : Z) (p : ProcEntry.t) :
  In p l -> ProcEntry.pid p < next_pid m l.
Proof.
  revert m; induction l as [|q l IH]; intros m; simpl; [tauto|].
  intros [->|H].
  - pose proof (next_pid_ge l (Z.max m (ProcEntry.pid p + 1))).
    unfold next_pid in *; simpl. lia.
  - unfold next_pid; simpl. now apply IH.
Qed.

Lemma next_pid_attained (l : list ProcEntry.t) (m : Z) :
  next_pid m l = m \/ exists p, In p l /\ next_pid m l = ProcEntry.pid p + 1.
Proof.
  unfold next_pid.
  revert m; induction l as [|q l IH]; intros m; simpl; [now left|].
  destruct (IH (Z.max m (ProcEntry.pid q + 1))) as [E|(p & Hp & E)].
  - rewrite E.
    destruct (Z.max_spec m (ProcEntry.pid q + 1)) as [[_ ->]|[_ ->]].
    + right. exists q. auto.
    + now left.
  - right. exists p. auto.
Qed.

End Scan.

(** ** Comparisons *)

Lemma ltb_lt (a b : Q) : PyNum.ltb a b = true <-> (a < b)%Q.
Proof.
  unfold PyNum.ltb. rewrite negb_true_iff.
  split; intros H.
  - apply Qnot_le_lt. intros L. apply Qle_bool_iff in L. congruence.
  - destruct (Qle_bool b a) eqn:E; [|reflexivity].
    apply Qle_bool_iff in E. exfalso. exact (Qlt_not_le _ _ H E).
Qed.

Lemma ltb_ge (a b : Q) : PyNum.ltb a b = false <-> (b <= a)%Q.
Proof.
  unfold PyNum.ltb. rewrite negb_false_iff. apply Qle_bool_iff.
Qed.

Lemma gtb_gt (a b : Q) : PyNum.gtb a b = true <-> (b < a)%Q.
Proof. exact (ltb_lt b a). Qed.

Lemma gtb_le (a b : Q) : PyNum.gtb a b = false <-> (a <= b)%Q.
Proof. exact (ltb_ge b a). Qed.

Lemma leb_le (a b : Q) : PyNum.leb a b = true <-> (a <= b)%Q.
Proof. apply Qle_bool_iff. Qed.

(** ** The delay calculator *)

Section Delay.

Variable config : Config.

Lemma getDelay_single (write : bool) (s : State) :
  multiplydelay (self s) = false ->
  getDelay write s =
  (Ok (if write then writedelay (self s) else delay (self s)), s).
Proof.
  intros H. unfold getDelay, bind, get_self; simpl. rewrite H. reflexivity.
Qed.

Lemma refreshed_multiplicity (s : State) (procs : list ProcEntry.t) :
  process_multiplicity (self (refreshed s procs)) =
  Some (count (scan (self s) (pid (world s))
                 (clock (world s) (ticks (world s))) procs)).
Proof. reflexivity. Qed.

Arguments refreshed : simpl never.

Lemma getDelay_eq (write : bool) (s : State) :
  multiplydelay (self s) = true ->
  getDelay write s =
  let base := if write then writedelay (self s) else delay (self s) in
  if refresh_due s then
    match registry true (world s) with
    | Ok procs =>
        let s' := refreshed (ticked s) procs in
        (Ok (PyNum.fmul (clamp (self s') base)
               (inject_Z (count (scan (self s) (pid (world s))
                                   (clock (world s) (S (ticks (world s))))
                                   procs)))),
         s')
    | Raise e =>
        (Raise e, emit (OpenRead (readable (world s))) (ticked (ticked s)))
    end
  else
    match process_multiplicity (self s) with
    | Some n => (Ok (PyNum.fmul (clamp (self s) base) (inject_Z n)), ticked s)
    | None => (Raise AttributeError, ticked s)
    end.
Proof.
  intros H. unfold getDelay, bind at 1, get_self; simpl. rewrite H; simpl.
  unfold bind at 1, time_time at 1; simpl. fold (refresh_due s).
  destruct (refresh_due s).
  - unfold bind at 1.
    change (mkState (self s) (tick (world s))) with (ticked s).
    rewrite checkMultiplicity_eq.
    change (registry true (world (ticked s))) with (registry true (world s)).
    destruct (registry true (world s)) as [procs|e]; [|reflexivity].
    unfold get_process_multiplicity, get_self, bind, ret. reflexivity.
  - unfold get_process_multiplicity, get_self, bind, ret; simpl.
    destruct (process_multiplicity (self s)); reflexivity.
Qed.

(** Where the baseline ends up. *)
Lemma clamp_cases (t : Throttle) (base : Q) :
  let floor := PyNum.fmul (mindelay t) (next_multiplicity t) in
  (base < floor /\ clamp t base = floor)%Q
  \/ (floor <= base /\ maxdelay t < base /\ clamp t base = maxdelay t)%Q
  \/ (floor <= base /\ base <= maxdelay t /\ clamp t base = base)%Q.
Proof.
  unfold clamp; simpl.
  destruct (PyNum.ltb base _) eqn:L.
  - left. apply ltb_lt in L. auto.
  - apply ltb_ge in L. right.
    destruct (PyNum.gtb base (maxdelay t)) eqn:G.
    + left. apply gtb_gt in G. auto.
    + right. apply gtb_le in G. auto.
Qed.

Lemma refreshed_frame (s : State) (procs : list ProcEntry.t) :
  let t := self s in
  let t' := self (refreshed s procs) in
  mindelay t' = mindelay t /\ maxdelay t' = maxdelay t
  /\ next_multiplicity t' = next_multiplicity t
  /\ last_read t' = last_read t /\ last_write t' = last_write t
  /\ delay t' = delay t /\ writedelay t' = writedelay t.
Proof.
  unfold refreshed, written; simpl.
  destruct (writable (world s)); simpl; repeat split; reflexivity.
Qed.

Lemma clamp_refreshed (s : State) (procs : list ProcEntry.t) (base : Q) :
  clamp (self (refreshed s procs)) base = clamp (self s) base.
Proof.
  unfold clamp.
  destruct (refreshed_frame s procs) as (-> & -> & -> & _). reflexivity.
Qed.

End Delay.

(** ** C1: the delay of [getDelay] *)

(** C1, as stated, fails: after a request of 63 pages the lower bound
    [mindelay * next_multiplicity = 30] lies above [maxdelay = 20]; the
    read baseline [5] is raised to [30], [getDelay] returns [30 * 1], and
    the adjusted value exceeds [maxdelay]. *)
Lemma getDelay_exceeds_maxdelay :
  multiplydelay (self burst_state) = true
  /\ clamp (self burst_state) (delay (self burst_state)) = 30%Q
  /\ fst (getDelay false burst_state) = Ok (PyNum.fmul 30 1)
  /\ ~ (clamp (self burst_state) (delay (self burst_state))
        <= maxdelay (self burst_state))%Q.
Proof.
  repeat split; try reflexivity.
  intros H. vm_compute in H. apply H. reflexivity.
Qed.

(** C1, amended: in multiplicity mode, whenever [getDelay] gets through, it
    returns the adjusted baseline multiplied by the process multiplicity
    current after the refresh, if one was due.  The baseline is
    [writedelay] for a write and [delay] for a read; the adjustment is an
    if/elif: a baseline below [mindelay * next_multiplicity] becomes that
    product, otherwise a baseline above [maxdelay] becomes [maxdelay],
    otherwise it is kept.  The adjusted value lies in
    [[mindelay * next_multiplicity, maxdelay]] whenever that interval is
    not empty. *)
Theorem getDelay_adjusts_then_multiplies (s : State) (write : bool) :
  multiplydelay (self s) = true ->
  can_delay s = true ->
  let t := self s in
  let base := if write then writedelay t else delay t in
  let floor := PyNum.fmul (mindelay t) (next_multiplicity t) in
  exists (s' : State) (n : Z),
    getDelay write s = (Ok (PyNum.fmul (clamp t base) (inject_Z n)), s')
    /\ process_multiplicity (self s') = Some n
    /\ ((base < floor /\ clamp t base = floor)%Q
        \/ (floor <= base /\ maxdelay t < base /\ clamp t base = maxdelay t)%Q
        \/ (floor <= base /\ base <= maxdelay t /\ clamp t base = base)%Q)
    /\ ((floor <= maxdelay t)%Q ->
        (floor <= clamp t base)%Q /\ (clamp t base <= maxdelay t)%Q).
Proof.
  intros Hm Hc t base floor.
  assert (Hcases := clamp_cases t base).
  cbv zeta in Hcases. fold floor in Hcases.
  assert (Hbounds : (floor <= maxdelay t)%Q ->
                    (floor <= clamp t base)%Q
                    /\ (clamp t base <= maxdelay t)%Q).
  { intros Hle.
    destruct Hcases as [(_ & ->)|[(_ & _ & ->)|(H1 & H2 & ->)]];
      auto using Qle_refl. }
  rewrite (getDelay_eq write s Hm). cbv zeta. fold t base.
  unfold can_delay in Hc.
  destruct (refresh_due s).
  - destruct (registry true (world s)) as [procs|e]; [|discriminate].
    exists (refreshed (ticked s) procs).
    exists (count (scan t (pid (world s))
                     (clock (world s) (S (ticks (world s)))) procs)).
    rewrite clamp_refreshed.
    split; [reflexivity|]. split; [apply refreshed_multiplicity|]. auto.
  - fold t in Hc.
    destruct (process_multiplicity t) as [n|] eqn:E; [|discriminate].
    exists (ticked s), n. auto.
Qed.

Lemma getDelay_adjusts_witness :
  exists (s' : State) (n : Z),
    getDelay false calm_state =
      (Ok (PyNum.fmul (clamp (self calm_state) 5) (inject_Z n)), s')
    /\ process_multiplicity (self s') = Some n
    /\ (5 <= clamp (self calm_state) 5)%Q
    /\ (clamp (self calm_state) 5 <= 20)%Q.
Proof.
  destruct (getDelay_adjusts_then_multiplies calm_state false
              eq_refl eq_refl) as (s' & n & H1 & H2 & _ & H3).
  exists s', n. split; [exact H1|]. split; [exact H2|].
  apply H3. vm_compute. discriminate.
Defined.

(** ** C2: what [waittime] leaves behind *)

Lemma waittime_eq (write : bool) (s : State) :
  waittime write s =
  match getDelay write s with
  | (Ok thisdelay, s1) =>
      let now := clock (world s1) (ticks (world s1)) in
      let ago := PyNum.fsub now (if write then last_write (self s1)
                                 else last_read (self s1)) in
      (Ok (PyNum.max 0 (PyNum.fsub thisdelay ago)), ticked s1)
  | (Raise e, s1) => (Raise e, s1)
  end.
Proof.
  unfold waittime, bind at 1.
  destruct (getDelay write s) as [[d|e] s1]; reflexivity.
Qed.

(** A refresh touches the trace only by its two file events, and the
    object only in [checktime] and [process_multiplicity]. *)
Lemma refreshed_trace (s : State) (procs : list ProcEntry.t) :
  added_events s (refreshed s procs)
    [OpenWrite (writable (world s)); OpenRead (readable (world s))].
Proof.
  unfold added_events, refreshed, written; simpl.
  destruct (writable (world s)); reflexivity.
Qed.

Lemma delay_frame_ticked (s s' : State) :
  delay_frame s s' -> delay_frame s (ticked s').
Proof. exact (fun H => H). Qed.

Lemma untouched_ticked (s s' : State) :
  untouched s s' -> untouched s (ticked s').
Proof. exact (fun H => H). Qed.

Lemma untouched_refl (s : State) : untouched s s.
Proof. repeat split. Qed.

Lemma untouched_frame (s s' : State) : untouched s s' -> delay_frame s s'.
Proof.
  intros (Hs & _ & _ & Ht). unfold delay_frame, added_events.
  rewrite Hs, Ht. repeat split. exists []. split; [reflexivity|].
  intros e [].
Qed.

Lemma getDelay_frame (write : bool) (s : State) :
  delay_frame s (snd (getDelay write s))
  /\ (multiplydelay (self s) && refresh_due s = false ->
      untouched s (snd (getDelay write s))).
Proof.
  destruct (multiplydelay (self s)) eqn:Hm.
  - rewrite (getDelay_eq write s Hm). cbv zeta. simpl andb.
    destruct (refresh_due s).
    + split; [|discriminate].
      destruct (registry true (world s)) as [procs|e]; simpl snd.
      * destruct (refreshed_frame (ticked s) procs)
          as (_ & _ & Hn & Hr & Hw & _).
        unfold delay_frame. rewrite Hn, Hr, Hw. repeat split.
        eexists. split; [apply (refreshed_trace (ticked s))|].
        intros e [<-|[<-|[]]]; reflexivity.
      * unfold delay_frame. repeat split.
        exists [OpenRead (readable (world s))]. split; [reflexivity|].
        intros e0 [<-|[]]; reflexivity.
    + assert (U : untouched s (ticked s)) by (repeat split).
      destruct (process_multiplicity (self s)); simpl snd;
        auto using untouched_frame.
  - rewrite (getDelay_single write s Hm). simpl snd.
    auto using untouched_frame, untouched_refl.
Qed.

(** C2, as stated, fails: a [waittime] query made 1000 seconds after the
    throttle was built ([checkdelay] is 300) reads the control file,
    stamps [checktime] and rewrites the control file. *)
Lemma waittime_refreshes_registry :
  let s' := snd (waittime false late_state) in
  (checktime (self late_state) = 0%Q /\ checktime (self s') = 1000%Q)
  /\ (ctrlfile (world late_state)
      = Some ("1 0.0 wiki" ++ String PyStr.LF "")%string
      /\ ctrlfile (world s')
         = Some ("1 1000.0 wiki" ++ String PyStr.LF "")%string)
  /\ (trace (world late_state) = [OpenWrite true; OpenRead false]
      /\ trace (world s')
         = [OpenWrite true; OpenRead true; OpenWrite true; OpenRead false]).
Proof. vm_compute. repeat split. Qed.

(** C2, amended: [waittime] never sleeps and never changes [last_read],
    [last_write] or [next_multiplicity]; the only events it can add are
    opens of the control file.  When multiplicity mode is off, or the
    call comes no later than [checkdelay] after [checktime], it changes
    nothing at all: the object, the global pid and the control file stay
    as they were.  Later than that it runs the registry refresh. *)
Theorem waittime_frame (s : State) (write : bool) :
  let s' := snd (waittime write s) in
  ((exists evs, added_events s s' evs
                /\ forall e, In e evs -> is_file_io e = true)
   /\ last_read (self s') = last_read (self s)
   /\ last_write (self s') = last_write (self s)
   /\ next_multiplicity (self s') = next_multiplicity (self s))
  /\ (multiplydelay (self s) && refresh_due s = false ->
      self s' = self s
      /\ pid (world s') = pid (world s)
      /\ ctrlfile (world s') = ctrlfile (world s)
      /\ trace (world s') = trace (world s))
  /\ (multiplydelay (self s) && refresh_due s = true ->
      snd (checkMultiplicity (ticked s)) = s'
      \/ ticked (snd (checkMultiplicity (ticked s))) = s').
Proof.
  cbv zeta. rewrite waittime_eq.
  destruct (getDelay_frame write s) as (F & U).
  split; [|split].
  - destruct (getDelay write s) as [[d|e] s1]; exact F.
  - intros H. specialize (U H).
    destruct (getDelay write s) as [[d|e] s1]; exact U.
  - intros H. apply andb_true_iff in H. destruct H as (Hm & Hd).
    rewrite (getDelay_eq write s Hm). cbv zeta. rewrite Hd.
    rewrite checkMultiplicity_eq.
    change (registry true (world (ticked s))) with (registry true (world s)).
    destruct (registry true (world s)); simpl snd; auto.
Qed.

Lemma waittime_frame_witness :
  untouched calm_state (snd (waittime true calm_state))
  /\ (snd (checkMultiplicity (ticked late_state))
        = snd (waittime true late_state)
      \/ ticked (snd (checkMultiplicity (ticked late_state)))
        = snd (waittime true late_state)).
Proof.
  destruct (waittime_frame calm_state true) as (_ & U & _).
  destruct (waittime_frame late_state true) as (_ & _ & R).
  split; [apply U|apply R]; reflexivity.
Defined.

(** ** C3: a control file that cannot be opened *)

(** C3, as stated, fails: on the very first access of a process (no id
    allocated, [pid] still [False]) the failed open is swallowed and the
    read yields no entries, also when the caller asked for exceptions; it
    is a process that already holds an id that gets the [IOError]. *)
Lemma first_access_swallows_IOError :
  (pid (world (start None still_clock)) = 0
   /\ ctrlfile (world (start None still_clock)) = None
   /\ fst (_read_file true (start None still_clock)) = Ok []
   /\ fst (__init__ default_config "wiki" None None None true
             (start None still_clock)) = Ok tt)
  /\ (pid (world orphan_state) = 1 /\ ctrlfile (world orphan_state) = None
      /\ fst (_read_file true orphan_state) = Raise IOError
      /\ fst (checkMultiplicity orphan_state) = Raise IOError).
Proof. vm_compute. repeat split. Qed.

(** C3, amended: when the control file cannot be opened, [_read_file]
    raises the [IOError] exactly when the caller passed [raise_exc] (as
    [checkMultiplicity] does) and the process-wide id is already
    allocated; in every other case, the first access of the process among
    them, it yields the empty sequence.  Either way the attempt to open is
    the only trace it leaves. *)
Theorem read_file_unopenable (s : State) (raise_exc : bool) :
  ctrlfile (world s) = None ->
  (fst (_read_file raise_exc s) = Raise IOError
   <-> raise_exc = true /\ pid (world s) <> 0)
  /\ (fst (_read_file raise_exc s) = Ok []
      <-> raise_exc = false \/ pid (world s) = 0)
  /\ snd (_read_file raise_exc s) = emit (OpenRead false) s.
Proof.
  intros H. rewrite read_file_eq. unfold registry, readable. rewrite H.
  simpl fst; simpl snd. unfold PyNum.truthyZ.
  destruct raise_exc; simpl andb;
    destruct (Z.eqb_spec (pid (world s)) 0) as [E|E]; simpl negb;
    (split; [|split; [|reflexivity]]); split;
    try discriminate; try tauto; try intuition congruence.
Qed.

Lemma read_file_unopenable_witness :
  fst (_read_file true (start None still_clock)) = Ok []
  /\ fst (_read_file true orphan_state) = Raise IOError.
Proof.
  destruct (read_file_unopenable (start None still_clock) true eq_refl)
    as (_ & H0 & _).
  destruct (read_file_unopenable orphan_state true eq_refl) as (H1 & _ & _).
  split; [apply H0; right; reflexivity|].
  apply H1; split; [reflexivity|]. vm_compute. discriminate.
Defined.

(** ** C4: the two predicates of [checkMultiplicity] *)

Lemma peer_not_expired (t : Throttle) (g : Z) (now : Q) (p : ProcEntry.t) :
  (dropdelay t <= releasepid t)%Q ->
  is_peer t g now p = true -> expired t now p = false.
Proof.
  unfold is_peer, expired. intros Hle H.
  apply andb_true_iff in H. destruct H as (H & _).
  apply andb_true_iff in H. destruct H as (H & _).
  apply leb_le in H. apply gtb_le. eapply Qle_trans; eassumption.
Qed.

Lemma filter_live_peers (t : Throttle) (g : Z) (now : Q)
    (procs : list ProcEntry.t) :
  (dropdelay t <= releasepid t)%Q ->
  filter (fun p => negb (expired t now p) && is_peer t g now p) procs
  = filter (is_peer t g now) procs.
Proof.
  intros Hle. apply filter_ext. intros p.
  destruct (is_peer t g now p) eqn:E.
  - rewrite (peer_not_expired t g now p Hle E). reflexivity.
  - apply andb_false_r.
Qed.

Lemma scan_eq (t : Throttle) (g : Z) (now : Q) (procs : list ProcEntry.t) :
  scan t g now procs =
  mkLocals
    (filter (retained t g now) procs)
    (1 + Z.of_nat (List.length
           (filter (fun p => negb (expired t now p) && is_peer t g now p)
                   procs)))
    (if PyNum.truthyZ g then g
     else next_pid 1 (filter (fun p => negb (expired t now p)) procs)).
Proof.
  unfold scan. rewrite scan_from. simpl.
  destruct (PyNum.truthyZ g); reflexivity.
Qed.



(** ** C5: the wait of [lag] *)

Lemma max_is_max (a b : Q) :
  (a <= PyNum.max a b)%Q /\ (b <= PyNum.max a b)%Q
  /\ (PyNum.max a b = a \/ PyNum.max a b = b).
Proof.
  unfold PyNum.max. destruct (PyNum.gtb b a) eqn:E.
  - apply gtb_gt in E. auto using Qle_refl, Qlt_le_weak.
  - apply gtb_le in E. auto using Qle_refl.
Qed.

Lemma min_is_min (a b : Q) :
  (PyNum.min a b <= a)%Q /\ (PyNum.min a b <= b)%Q
  /\ (PyNum.min a b = a \/ PyNum.min a b = b).
Proof.
  unfold PyNum.min. destruct (PyNum.ltb b a) eqn:E.
  - apply ltb_lt in E. auto using Qle_refl, Qlt_le_weak.
  - apply ltb_ge in E. auto using Qle_refl.
Qed.

Lemma wait_eq (config : Config) (seconds : Q) (s : State) :
  wait config seconds s =
  (Ok tt,
   if PyNum.leb seconds 0 then s
   else emit (Sleep seconds)
          (emit (if PyNum.gtb seconds (noisysleep config)
                 then Output seconds else Log seconds) s)).
Proof.
  unfold wait. destruct (PyNum.leb seconds 0); [reflexivity|].
  destruct (PyNum.gtb seconds (noisysleep config)); reflexivity.
Qed.




(** ** Numerals *)

Lemma lstrip_nonspace (s : string) :
  string_forall nonspace s = true -> PyStr.lstrip s = s.
Proof.
  destruct s as [|c r]; simpl; [reflexivity|].
  unfold nonspace.
  destruct (PyStr.isspace c); simpl; [discriminate|reflexivity].
Qed.

Lemma rstrip_nonspace (s : string) :
  string_forall nonspace s = true -> PyStr.rstrip s = s.
Proof.
  induction s as [|c r IH]; simpl; [reflexivity|].
  intros H. apply andb_true_iff in H. destruct H as (Hc & Hr).
  rewrite (IH Hr). unfold nonspace in Hc.
  destruct r; [|reflexivity].
  destruct (PyStr.isspace c); [discriminate|reflexivity].
Qed.

Lemma strip_nonspace (s : string) :
  string_forall nonspace s = true -> PyStr.strip s = s.
Proof.
  intros H. unfold PyStr.strip. rewrite (lstrip_nonspace s H).
  now apply rstrip_nonspace.
Qed.

Lemma uint_nonspace (u : Decimal.uint) :
  string_forall nonspace (NilEmpty.string_of_uint u) = true.
Proof. induction u; simpl; auto. Qed.

Lemma digitpart_tail_uint (u : Decimal.uint) (acc : Z) (n : nat) :
  exists k,
    PyStr.digitpart_tail (NilEmpty.string_of_uint u) acc n
    = (uint_val u acc, k, EmptyString).
Proof.
  revert acc n; induction u; intros acc n; simpl;
    try apply IHu.
  now exists n.
Qed.

Lemma uint_val_acc (u : Decimal.uint) (acc : positive) :
  uint_val u (Zpos acc) = Zpos (Pos.of_uint_acc u acc).
Proof.
  revert acc; induction u; intros acc; cbn [uint_val Pos.of_uint_acc];
    try reflexivity; rewrite <- IHu; f_equal; lia.
Qed.

Lemma uint_val_of_uint (u : Decimal.uint) :
  uint_val u 0 = Z.of_N (Pos.of_uint u).
Proof.
  induction u; simpl; try assumption; try reflexivity;
    (etransitivity; [|apply uint_val_acc]); reflexivity.
Qed.

Lemma digitpart_uint (u : Decimal.uint) :
  u <> Decimal.Nil ->
  exists k,
    PyStr.digitpart (NilEmpty.string_of_uint u)
    = Some (Z.of_N (Pos.of_uint u), k, EmptyString).
Proof.
  intros H. rewrite <- uint_val_of_uint.
  destruct u; try congruence; unfold PyStr.digitpart; simpl;
    match goal with
    | |- context [PyStr.digitpart_tail (NilEmpty.string_of_uint ?u) ?a ?n] =>
        destruct (digitpart_tail_uint u a n) as (k & ->)
    end; exists k; reflexivity.
Qed.

Lemma sign_uint (u : Decimal.uint) :
  PyStr.sign (NilEmpty.string_of_uint u) = (false, NilEmpty.string_of_uint u).
Proof. destruct u; reflexivity. Qed.

(** A positive number prints as its numeral, which reads back. *)
Lemma py_int_pos (p : positive) :
  PyStr.py_int (PyStr.str_int (Zpos p)) = Some (Zpos p).
Proof.
  unfold PyStr.str_int, PyStr.py_int; simpl.
  pose proof (Unsigned.to_uint_nonnil p) as Hn.
  assert (E : NilZero.string_of_uint (Pos.to_uint p)
              = NilEmpty.string_of_uint (Pos.to_uint p)).
  { destruct (Pos.to_uint p); try reflexivity. congruence. }
  rewrite E, (strip_nonspace _ (uint_nonspace _)), sign_uint.
  destruct (digitpart_uint _ Hn) as (k & ->).
  rewrite DecimalPos.Unsigned.of_to. reflexivity.
Qed.

Lemma py_int_neg (p : positive) :
  PyStr.py_int (PyStr.str_int (Zneg p)) = Some (Zneg p).
Proof.
  unfold PyStr.str_int, PyStr.py_int; simpl.
  pose proof (Unsigned.to_uint_nonnil p) as Hn.
  assert (E : NilZero.string_of_uint (Pos.to_uint p)
              = NilEmpty.string_of_uint (Pos.to_uint p)).
  { destruct (Pos.to_uint p); try reflexivity. congruence. }
  rewrite E.
  rewrite (strip_nonspace (String "-" _)).
  - simpl. destruct (digitpart_uint _ Hn) as (k & ->).
    rewrite DecimalPos.Unsigned.of_to. reflexivity.
  - simpl. apply uint_nonspace.
Qed.

(** [int(str(n)) == n] *)
Lemma py_int_str_int (z : Z) : PyStr.py_int (PyStr.str_int z) = Some z.
Proof.
  destruct z; [reflexivity|apply py_int_pos|apply py_int_neg].
Qed.

(** ** C7: the rewrite of the registry *)

Lemma leb_trans (a b c : string) :
  String.leb a b = true -> String.leb b c = true -> String.leb a c = true.
Proof.
  unfold String.leb. intros H1 H2.
  destruct (String.compare a b) eqn:E1; try discriminate.
  - apply String.compare_eq_iff in E1. subst. exact H2.
  - destruct (String.compare b c) eqn:E2; try discriminate.
    + apply String.compare_eq_iff in E2. subst. rewrite E1. reflexivity.
    + assert (L : String_as_OT.lt a c).
      { eapply (@RelationClasses.StrictOrder_Transitive _ _
                  String_as_OT.lt_strorder); [exact E1|exact E2]. }
      unfold String_as_OT.lt in L.
      change (String.compare a c = Lt) in L. rewrite L. reflexivity.
Qed.

Lemma key_le_order (p q : ProcEntry.t) : key_le p q = true <-> key_order p q.
Proof.
  unfold key_le, key_order.
  rewrite orb_true_iff, andb_true_iff, Z.ltb_lt, Z.eqb_eq. tauto.
Qed.

Lemma key_order_total (p q : ProcEntry.t) :
  key_le p q = false -> key_order q p.
Proof.
  unfold key_le, key_order. intros H.
  apply orb_false_iff in H. destruct H as (H1 & H2).
  apply Z.ltb_ge in H1. apply andb_false_iff in H2.
  destruct H2 as [H2|H2].
  - apply Z.eqb_neq in H2. left. lia.
  - destruct (Z.eq_dec (ProcEntry.pid q) (ProcEntry.pid p)) as [E|E];
      [|left; lia].
    right. split; [exact E|].
    destruct (String.leb_total (ProcEntry.site p) (ProcEntry.site q));
      congruence.
Qed.

Lemma key_order_trans : Relations_1.Transitive key_order.
Proof.
  intros p q r [H1|(H1 & L1)] [H2|(H2 & L2)]; unfold key_order;
    try (left; lia).
  right. split; [lia|]. eapply leb_trans; eassumption.
Qed.

Lemma insert_perm (p : ProcEntry.t) (l : list ProcEntry.t) :
  Permutation (p :: l) (insert p l).
Proof.
  induction l as [|q l IH]; simpl; [reflexivity|].
  destruct (key_le p q); [reflexivity|].
  rewrite perm_swap. now apply perm_skip.
Qed.

Lemma sort_perm (l : list ProcEntry.t) : Permutation l (sort l).
Proof.
  induction l as [|p l IH]; simpl; [constructor|].
  rewrite <- insert_perm. now apply perm_skip.
Qed.

Lemma insert_sorted (p : ProcEntry.t) (l : list ProcEntry.t) :
  Sorted key_order l -> Sorted key_order (insert p l).
Proof.
  induction l as [|q l IH]; simpl; intros H.
  - repeat constructor.
  - destruct (key_le p q) eqn:E.
    + constructor; [exact H|]. constructor. now apply key_le_order.
    + inversion H as [|? ? Hs Hh]; subst.
      constructor; [now apply IH|].
      destruct l as [|r l]; simpl.
      * constructor. now apply key_order_total.
      * destruct (key_le p r); constructor.
        -- now apply key_order_total.
        -- now inversion Hh.
Qed.

Lemma sort_sorted (l : list ProcEntry.t) : StronglySorted key_order (sort l).
Proof.
  apply Sorted_StronglySorted; [exact key_order_trans|].
  induction l as [|p l IH]; simpl; [constructor|].
  now apply insert_sorted.
Qed.

Lemma parse_line_int_stamp (line : string) (p : ProcEntry.t) :
  parse_line line = Ok p -> exists z, ProcEntry.time p = IntStamp z.
Proof.
  unfold parse_line.
  destruct (PyStr.split " " line) as [|f1 [|f2 [|f3 [|]]]]; try discriminate.
  destruct (PyStr.py_int f1) as [n|]; [|discriminate].
  destruct (PyStr.py_float f2) as [x|]; [|discriminate].
  destruct (PyStr.int_of_float x) as [z|]; [|discriminate].
  intros H. inversion H. now exists z.
Qed.

Lemma parse_lines_int_stamps (lines : list string) (es : list ProcEntry.t) :
  parse_lines lines = Ok es ->
  Forall (fun p => exists z, ProcEntry.time p = IntStamp z) es.
Proof.
  revert es; induction lines as [|l ls IH]; simpl; intros es H.
  - inversion H. constructor.
  - destruct (parse_line l) as [p|e] eqn:E.
    + destruct (parse_lines ls) as [es'|]; [|discriminate].
      inversion H. constructor; [now apply (parse_line_int_stamp l)|].
      now apply IH.
    + destruct e; try discriminate. now apply IH.
Qed.

Lemma registry_int_stamps (raise_exc : bool) (w : World)
    (es : list ProcEntry.t) :
  registry raise_exc w = Ok es ->
  Forall (fun p => exists z, ProcEntry.time p = IntStamp z) es.
Proof.
  unfold registry. destruct (ctrlfile w).
  - apply parse_lines_int_stamps.
  - destruct (raise_exc && _); [discriminate|].
    intros H. inversion H. constructor.
Qed.

Lemma drop_eq (s : State) :
  drop s =
  let s1 := emit (OpenRead (readable (world s)))
              (ticked (mkState (set_checktime 0 (self s)) (world s))) in
  match registry false (world s) with
  | Ok procs =>
      (Ok tt,
       written (filter (survives_drop (self s) (pid (world s))
                          (clock (world s) (ticks (world s))))
                       procs) s1)
  | Raise e => (Raise e, s1)
  end.
Proof.
  unfold drop, bind at 1 2, update, time_time; simpl.
  unfold bind at 1. rewrite read_file_eq; simpl.
  change (registry false _) with (registry false (world s)).
  destruct (registry false (world s)) as [procs|e]; [|reflexivity].
  unfold bind, get_self, get_pid; simpl. rewrite write_file_eq.
  reflexivity.
Qed.

(** C7, as stated, fails: the entry [checkMultiplicity] adds for its own
    process carries [checktime], the float the clock returned, and is
    written with its fractional part: the time field of the line is
    [1000.5], which is not an integer numeral. *)
Lemma own_stamp_written_as_float :
  ctrlfile (world (start None half_clock)) = None
  /\ ctrlfile (world (new_throttle (start None half_clock)))
     = Some ("1 1000.5 wiki" ++ String PyStr.LF "")%string
  /\ PyStr.split " " ("1 1000.5 wiki" ++ String PyStr.LF "")
     = ["1"; "1000.5"; ("wiki" ++ String PyStr.LF "")]%string
  /\ PyStr.py_int "1000.5" = None.
Proof. vm_compute. repeat split. Qed.

(** C7, amended: a rewrite that can open the file replaces its contents,
    whatever they were, by one line per entry, [pid time site] separated
    by single spaces, the entries sorted by [(pid, site)].  The entries
    read from the file carry integer timestamps, which are written as
    integer numerals; the rewrite of [drop] writes only such entries; the
    rewrite of [checkMultiplicity] appends the entry of this process,
    whose timestamp is the float [checktime]. *)
Theorem rewrite_replaces_with_sorted_lines :
  (forall (s : State) (ps : list ProcEntry.t),
     writable (world s) = true ->
     exists s' : State,
       _write_file ps s = (Ok tt, s')
       /\ ctrlfile (world s') = Some (render (sort ps)))
  /\ (forall ps : list ProcEntry.t,
        render ps = String.concat "" (map line_of ps)
        /\ Permutation ps (sort ps)
        /\ StronglySorted key_order (sort ps))
  /\ (forall (raise_exc : bool) (s : State) (es : list ProcEntry.t),
        fst (_read_file raise_exc s) = Ok es ->
        Forall (fun p => exists z : Z,
                  ProcEntry.time p = IntStamp z
                  /\ str_stamp (ProcEntry.time p) = PyStr.str_int z
                  /\ PyStr.py_int (str_stamp (ProcEntry.time p)) = Some z)
               es)
  /\ (forall (s : State) (procs : list ProcEntry.t),
        registry false (world s) = Ok procs ->
        writable (world s) = true ->
        exists kept : list ProcEntry.t,
          incl kept procs
          /\ ctrlfile (world (snd (drop s))) = Some (render (sort kept)))
  /\ (forall (s : State) (procs : list ProcEntry.t),
        registry true (world s) = Ok procs ->
        writable (world s) = true ->
        let s' := snd (checkMultiplicity s) in
        exists kept : list ProcEntry.t,
          incl kept procs
          /\ ctrlfile (world s')
             = Some (render (sort (kept ++
                   [ProcEntry.mk (pid (world s'))
                      (FloatStamp (checktime (self s')))
                      (mysite (self s))])))).
Proof.
  split; [|split; [|split; [|split]]].
  - intros s ps Hw. rewrite write_file_eq. eexists. split; [reflexivity|].
    unfold written. rewrite Hw. reflexivity.
  - intros ps. split; [reflexivity|].
    split; [apply sort_perm|apply sort_sorted].
  - intros raise_exc s es H. rewrite read_file_eq in H. simpl in H.
    apply registry_int_stamps in H.
    eapply Forall_impl; [|exact H].
    intros p (z & Hz). exists z. rewrite Hz. simpl.
    auto using py_int_str_int.
  - intros s procs Hr Hw. rewrite drop_eq, Hr. cbv zeta. simpl snd.
    eexists. split; [apply incl_filter|].
    unfold written; simpl. rewrite Hw. reflexivity.
  - intros s procs Hr Hw. cbv zeta. rewrite checkMultiplicity_eq, Hr.
    simpl snd.
    exists (filter (retained (self s) (pid (world s))
                      (clock (world s) (ticks (world s)))) procs).
    split; [apply incl_filter|].
    unfold refreshed, written; simpl. rewrite Hw; simpl.
    rewrite scan_eq. reflexivity.
Qed.

Lemma rewrite_replaces_witness :
  (exists s' : State,
     _write_file shared_entries shared_state = (Ok tt, s')
     /\ ctrlfile (world s') = Some (render (sort shared_entries)))
  /\ Forall (fun p => exists z : Z,
               ProcEntry.time p = IntStamp z
               /\ str_stamp (ProcEntry.time p) = PyStr.str_int z
               /\ PyStr.py_int (str_stamp (ProcEntry.time p)) = Some z)
            shared_entries
  /\ (exists kept : list ProcEntry.t,
        incl kept shared_entries
        /\ ctrlfile (world (snd (drop shared_state)))
           = Some (render (sort kept)))
  /\ (let s' := snd (checkMultiplicity shared_state) in
      exists kept : list ProcEntry.t,
        incl kept shared_entries
        /\ ctrlfile (world s')
           = Some (render (sort (kept ++
                 [ProcEntry.mk (pid (world s'))
                    (FloatStamp (checktime (self s')))
                    (mysite (self shared_state))])))).
Proof.
  destruct rewrite_replaces_with_sorted_lines as (H1 & _ & H3 & H4 & H5).
  split; [apply (H1 shared_state shared_entries); reflexivity|].
  split; [apply (H3 false shared_state); reflexivity|].
  split; [apply (H4 shared_state); reflexivity|].
  apply (H5 shared_state); reflexivity.
Defined.

(** ** Frame rules of the monad *)

Section Frame.

Variable R : State -> State -> Prop.
Hypothesis R_refl : forall s, R s s.
Hypothesis R_trans : forall s1 s2 s3, R s1 s2 -> R s2 s3 -> R s1 s3.

Lemma preserves_ret {A : Type} (a : A) : preserves R (ret a).
Proof. intros s. apply R_refl. Qed.

Lemma preserves_raise {A : Type} (e : exn) : preserves R (@raise A e).
Proof. intros s. apply R_refl. Qed.

Lemma preserves_lift {A : Type} (r : result A) : preserves R (lift r).
Proof. intros s. apply R_refl. Qed.

Lemma preserves_bind {A B : Type} (m : M A) (k : A -> M B) :
  preserves R m -> (forall a, preserves R (k a)) -> preserves R (bind m k).
Proof.
  intros Hm Hk s. unfold bind. specialize (Hm s).
  destruct (m s) as [[a|e] s1]; simpl in *; [|exact Hm].
  eapply R_trans; [exact Hm|apply Hk].
Qed.

Lemma preserves_try {A : Type} (m handler : M A) (e : exn -> bool) :
  preserves R m -> preserves R handler -> preserves R (try_except m e handler).
Proof.
  intros Hm Hh s. unfold try_except. specialize (Hm s).
  destruct (m s) as [[a|x] s1]; simpl in *; [exact Hm|].
  destruct (e x); [|exact Hm].
  eapply R_trans; [exact Hm|apply Hh].
Qed.

Lemma preserves_if {A : Type} (b : bool) (m1 m2 : M A) :
  preserves R m1 -> preserves R m2 -> preserves R (if b then m1 else m2).
Proof. destruct b; auto. Qed.

Lemma preserves_get_self : preserves R get_self.
Proof. intros s. apply R_refl. Qed.

Lemma preserves_get_pid : preserves R get_pid.
Proof. intros s. apply R_refl. Qed.

End Frame.

(** ** C8: the process-wide id *)

Lemma pid_kept_refl (s : State) : pid_kept s s.
Proof. intros _. reflexivity. Qed.

Lemma pid_kept_trans (s1 s2 s3 : State) :
  pid_kept s1 s2 -> pid_kept s2 s3 -> pid_kept s1 s3.
Proof.
  unfold pid_kept. intros H1 H2 H. rewrite <- (H1 H). apply H2.
  now rewrite (H1 H).
Qed.

Lemma pid_kept_same_world (f : State -> State) :
  (forall s, pid (world (f s)) = pid (world s)) ->
  forall s, pid_kept s (f s).
Proof. intros H s _. apply H. Qed.

Lemma pid_kept_update (f : Throttle -> Throttle) :
  preserves pid_kept (update f).
Proof. intros s _. reflexivity. Qed.

Lemma pid_kept_time : preserves pid_kept time_time.
Proof. intros s _. reflexivity. Qed.

Lemma pid_kept_emit (e : event) : preserves pid_kept (event_emit e).
Proof. intros s _. reflexivity. Qed.

Lemma pid_kept_read (raise_exc : bool) :
  preserves pid_kept (_read_file raise_exc).
Proof. intros s _. rewrite read_file_eq. reflexivity. Qed.

Lemma pid_kept_write (ps : list ProcEntry.t) :
  preserves pid_kept (_write_file ps).
Proof.
  intros s _. rewrite write_file_eq. unfold written; simpl.
  destruct (writable (world s)); reflexivity.
Qed.

Lemma pid_kept_check : preserves pid_kept checkMultiplicity.
Proof.
  intros s H. rewrite checkMultiplicity_eq.
  destruct (registry true (world s)) as [procs|e]; [|reflexivity].
  unfold refreshed, written; simpl.
  apply Z.eqb_neq in H. unfold PyNum.truthyZ. rewrite H.
  destruct (writable (world s)); reflexivity.
Qed.

Create HintDb pid_frame.

#[local] Hint Resolve pid_kept_refl pid_kept_trans pid_kept_update
  pid_kept_time pid_kept_emit pid_kept_read pid_kept_write pid_kept_check
  : pid_frame.

(** One step through the structure of a method. *)
Ltac frame_step db :=
  cbv beta zeta;
  match goal with
  | |- preserves _ (bind _ _) =>
      apply preserves_bind; [solve [eauto with db]| |intros]
  | |- preserves _ (ret _) => apply preserves_ret; solve [eauto with db]
  | |- preserves _ (raise _) => apply preserves_raise; solve [eauto with db]
  | |- preserves _ get_self => apply preserves_get_self; solve [eauto with db]
  | |- preserves _ get_pid => apply preserves_get_pid; solve [eauto with db]
  | |- preserves _ (if _ then _ else _) => apply preserves_if
  | |- preserves _ (match ?x with _ => _ end) => destruct x
  | |- _ => solve [eauto with db]
  end.

Lemma pid_kept_drop : preserves pid_kept drop.
Proof. unfold drop. repeat frame_step pid_frame. Qed.

Lemma pid_kept_setDelays (config : Config) (d w : option Q) (a : bool) :
  preserves pid_kept (setDelays config d w a).
Proof. unfold setDelays. repeat frame_step pid_frame. Qed.

Lemma pid_kept_init (config : Config) (site : string) (a b c : option Q)
    (m : bool) :
  preserves pid_kept (__init__ config site a b c m).
Proof.
  unfold __init__. pose proof (pid_kept_setDelays config).
  repeat frame_step pid_frame.
Qed.

Lemma pid_kept_getDelay (write : bool) : preserves pid_kept (getDelay write).
Proof.
  unfold getDelay, get_process_multiplicity. repeat frame_step pid_frame.
Qed.

Lemma pid_kept_waittime (write : bool) : preserves pid_kept (waittime write).
Proof.
  unfold waittime. pose proof (pid_kept_getDelay write).
  repeat frame_step pid_frame.
Qed.

Lemma pid_kept_wait (config : Config) (seconds : Q) :
  preserves pid_kept (wait config seconds).
Proof. unfold wait. repeat frame_step pid_frame. Qed.

Lemma pid_kept_call (config : Config) (math_log : Q -> Q) (n : Z)
    (write : bool) :
  preserves pid_kept (__call__ config math_log n write).
Proof.
  unfold __call__. pose proof (pid_kept_waittime write).
  pose proof (pid_kept_wait config).
  repeat frame_step pid_frame.
Qed.

Lemma pid_kept_lag (config : Config) (lagtime : option Q) :
  preserves pid_kept (lag config lagtime).
Proof.
  unfold lag. pose proof (pid_kept_wait config).
  repeat frame_step pid_frame.
Qed.




(** ** C9: single-process mode *)

Lemma file_quiet_refl (s : State) : file_quiet s s.
Proof. split; [reflexivity|]. exists []. split; [reflexivity|intros e []]. Qed.

Lemma file_quiet_trans (s1 s2 s3 : State) :
  file_quiet s1 s2 -> file_quiet s2 s3 -> file_quiet s1 s3.
Proof.
  intros (F1 & evs1 & A1 & Q1) (F2 & evs2 & A2 & Q2).
  split; [congruence|]. exists (evs2 ++ evs1). split.
  - unfold added_events in *. rewrite A2, A1. apply List.app_assoc.
  - intros e H. apply in_app_or in H. destruct H; auto.
Qed.

Lemma quiet_single_refl (s : State) : quiet_single s s.
Proof. intros H. auto using file_quiet_refl. Qed.

Lemma quiet_single_trans (s1 s2 s3 : State) :
  quiet_single s1 s2 -> quiet_single s2 s3 -> quiet_single s1 s3.
Proof.
  intros H1 H2 H. destruct (H1 H) as (M & F1). destruct (H2 M) as (M' & F2).
  eauto using file_quiet_trans.
Qed.

Lemma quiet_update (f : Throttle -> Throttle) :
  (forall t, multiplydelay (f t) = multiplydelay t) ->
  preserves quiet_single (update f).
Proof.
  intros Hf s H. simpl. rewrite Hf. split; [exact H|].
  apply (file_quiet_refl s).
Qed.

Lemma quiet_time : preserves quiet_single time_time.
Proof. intros s H. split; [exact H|]. apply (file_quiet_refl s). Qed.

Lemma quiet_emit (e : event) :
  is_file_io e = false -> preserves quiet_single (event_emit e).
Proof.
  intros He s H. split; [exact H|]. split; [reflexivity|].
  exists [e]. split; [reflexivity|]. intros e' [<-|[]]. exact He.
Qed.

Create HintDb quiet_frame.

#[local] Hint Resolve quiet_single_refl quiet_single_trans quiet_time
  : quiet_frame.
#[local] Hint Extern 1 (preserves quiet_single (update _)) =>
  apply quiet_update; intros; reflexivity : quiet_frame.
#[local] Hint Extern 1 (preserves quiet_single (event_emit _)) =>
  apply quiet_emit; reflexivity : quiet_frame.

Lemma quiet_getDelay (write : bool) : preserves quiet_single (getDelay write).
Proof.
  intros s H. rewrite (getDelay_single write s H). simpl.
  split; [exact H|apply file_quiet_refl].
Qed.

Lemma quiet_waittime (write : bool) : preserves quiet_single (waittime write).
Proof.
  unfold waittime. pose proof (quiet_getDelay write).
  repeat frame_step quiet_frame.
Qed.

Lemma quiet_wait (config : Config) (seconds : Q) :
  preserves quiet_single (wait config seconds).
Proof. unfold wait. repeat frame_step quiet_frame. Qed.

Lemma quiet_call (config : Config) (math_log : Q -> Q) (n : Z) (write : bool) :
  preserves quiet_single (__call__ config math_log n write).
Proof.
  unfold __call__. pose proof (quiet_waittime write).
  pose proof (quiet_wait config).
  repeat frame_step quiet_frame.
Qed.

Lemma quiet_lag (config : Config) (lagtime : option Q) :
  preserves quiet_single (lag config lagtime).
Proof.
  unfold lag. pose proof (quiet_wait config).
  repeat frame_step quiet_frame.
Qed.

Lemma quiet_setDelays (config : Config) (d w : option Q) (a : bool) :
  preserves quiet_single (setDelays config d w a).
Proof. unfold setDelays. repeat frame_step quiet_frame. Qed.

Lemma quiet_init (config : Config) (site : string) (a b c : option Q)
    (s : State) :
  file_quiet s (snd (__init__ config site a b c false s)).
Proof.
  unfold __init__.
  match goal with
  | |- file_quiet _ (snd (bind (update ?f) ?k _)) =>
      change (file_quiet s (snd (k tt (mkState (f (self s)) (world s)))));
      set (s1 := mkState (f (self s)) (world s))
  end.
  cbv beta.
  assert (Q : file_quiet s s1) by apply (file_quiet_refl s).
  apply (file_quiet_trans _ _ _ Q).
  assert (P : preserves quiet_single
                (bind (ret tt) (fun _ => setDelays config None None false))).
  { pose proof (quiet_setDelays config). repeat frame_step quiet_frame. }
  apply (P s1). reflexivity.
Qed.

(** C9, as stated, fails: [drop] never looks at [multiplydelay]; on a
    throttle in single-process mode it opens the control file for reading
    and for writing and rewrites it (here without the entry that is older
    than [releasepid]). *)
Lemma drop_rewrites_in_single_mode :
  multiplydelay (self single_state) = false
  /\ trace (world (snd (drop single_state))) = [OpenWrite true; OpenRead true]
  /\ ctrlfile (world single_state) = Some shared_file
  /\ ctrlfile (world (snd (drop single_state)))
     = Some ("1 4000 wiki" ++ String PyStr.LF
             ("2 4900 other" ++ String PyStr.LF
              ("2 4900 wiki" ++ String PyStr.LF
               ("3 4100 wiki" ++ String PyStr.LF ""))))%string.
Proof. vm_compute. repeat split. Qed.

(** C9, amended: with the multiplicity option disabled, construction,
    delay computation ([getDelay], [waittime]), acquire ([__call__]),
    [setDelays] and [lag] never open the control file and leave it as it
    is.  Release ([drop]) is not covered: in either mode it opens the
    control file for reading and, when that succeeds, rewrites it. *)
Theorem single_mode_file_io (config : Config) (math_log : Q -> Q) :
  (forall (site : string) (a b c : option Q) (s : State),
     file_quiet s (snd (__init__ config site a b c false s)))
  /\ (forall s : State,
        multiplydelay (self s) = false ->
        forall (write : bool) (n : Z) (a b : option Q),
          file_quiet s (snd (getDelay write s))
          /\ file_quiet s (snd (waittime write s))
          /\ file_quiet s (snd (__call__ config math_log n write s))
          /\ file_quiet s (snd (setDelays config a b write s))
          /\ file_quiet s (snd (lag config a s)))
  /\ (forall s : State,
        exists evs : list event,
          added_events s (snd (drop s)) evs
          /\ In (OpenRead (readable (world s))) evs
          /\ forall procs, registry false (world s) = Ok procs ->
                           In (OpenWrite (writable (world s))) evs).
Proof.
  split; [|split].
  - intros. apply quiet_init.
  - intros s H write n a b.
    split; [exact (proj2 (quiet_getDelay write s H))|].
    split; [exact (proj2 (quiet_waittime write s H))|].
    split; [exact (proj2 (quiet_call config math_log n write s H))|].
    split; [exact (proj2 (quiet_setDelays config a b write s H))|].
    exact (proj2 (quiet_lag config a s H)).
  - intros s. rewrite drop_eq. cbv zeta.
    destruct (registry false (world s)) as [procs|e]; simpl snd.
    + exists [OpenWrite (writable (world s)); OpenRead (readable (world s))].
      split; [|split; [right; left; reflexivity|intros; left; reflexivity]].
      unfold added_events, written; simpl.
      destruct (writable (world s)); reflexivity.
    + exists [OpenRead (readable (world s))].
      split; [reflexivity|]. split; [left; reflexivity|]. discriminate.
Qed.

Lemma single_mode_witness :
  file_quiet single_state
    (snd (__call__ default_config (fun q => q) 1 false single_state))
  /\ file_quiet single_state (snd (waittime true single_state)).
Proof.
  destruct (single_mode_file_io default_config (fun q => q)) as (_ & H & _).
  destruct (H single_state eq_refl false 1 None None) as (_ & _ & H1 & _).
  destruct (H single_state eq_refl true 1 None None) as (_ & H2 & _).
  split; assumption.
Defined.

(** ** C10: the wait comes before the adaptation *)

Lemma call_eq (config : Config) (math_log : Q -> Q) (n : Z) (write : bool)
    (s : State) :
  __call__ config math_log n write s =
  match waittime write s with
  | (Ok w, s1) =>
      let s2 := mkState (set_next_multiplicity (log2_1p math_log n) (self s1))
                        (with_trace (app (wait_events config w)) (world s1)) in
      let now := clock (world s2) (ticks (world s2)) in
      (Ok tt,
       mkState ((if write then set_last_write now else set_last_read now)
                  (self s2))
               (tick (world s2)))
  | (Raise e, s1) => (Raise e, s1)
  end.
Proof.
  unfold __call__, bind at 1.
  destruct (waittime write s) as [[w|e] s1]; [|reflexivity].
  unfold bind at 1, update at 1. cbv beta iota.
  unfold bind at 1. rewrite wait_eq. cbv beta iota zeta.
  unfold wait_events.
  destruct s1 as [t1 [g f wr c k tr]].
  destruct (PyNum.leb w 0); destruct write; reflexivity.
Qed.

Lemma factor_kept_refl (s : State) : factor_kept s s.
Proof. reflexivity. Qed.

Lemma factor_kept_trans (s1 s2 s3 : State) :
  factor_kept s1 s2 -> factor_kept s2 s3 -> factor_kept s1 s3.
Proof. unfold factor_kept. congruence. Qed.

Lemma factor_kept_check : preserves factor_kept checkMultiplicity.
Proof.
  intros s. rewrite checkMultiplicity_eq. unfold factor_kept.
  destruct (registry true (world s)) as [procs|e]; [|reflexivity].
  apply (refreshed_frame s procs).
Qed.

Lemma factor_kept_time : preserves factor_kept time_time.
Proof. intros s. reflexivity. Qed.

Create HintDb factor_frame.

#[local] Hint Resolve factor_kept_refl factor_kept_trans factor_kept_check
  factor_kept_time : factor_frame.
#[local] Hint Extern 1 (preserves factor_kept (update _)) =>
  intros ?; reflexivity : factor_frame.

Lemma factor_kept_setDelays (config : Config) (d w : option Q) (a : bool) :
  preserves factor_kept (setDelays config d w a).
Proof. unfold setDelays. repeat frame_step factor_frame. Qed.

Lemma init_factor (config : Config) (site : string) (a b c : option Q)
    (flag : bool) (s : State) :
  next_multiplicity (self (snd (__init__ config site a b c flag s))) = 1%Q.
Proof.
  unfold __init__.
  match goal with
  | |- context [bind (update ?f) ?k _] =>
      change (next_multiplicity
                (self (snd (k tt (mkState (f (self s)) (world s))))) = 1%Q);
      set (s1 := mkState (f (self s)) (world s))
  end.
  cbv beta.
  assert (P : preserves factor_kept
                (bind (if flag then checkMultiplicity else ret tt)
                      (fun _ => setDelays config None None false))).
  { pose proof (factor_kept_setDelays config).
    repeat frame_step factor_frame. }
  rewrite (P s1). reflexivity.
Qed.

(** What [waittime] returns in multiplicity mode. *)
Lemma waittime_value (write : bool) (s s1 : State) (w : Q) :
  multiplydelay (self s) = true ->
  waittime write s = (Ok w, s1) ->
  exists (m : Z) (now : Q),
    process_multiplicity (self s1) = Some m
    /\ w = PyNum.max 0
             (PyNum.fsub
                (PyNum.fmul
                   (clamp (self s) (if write then writedelay (self s)
                                    else delay (self s)))
                   (inject_Z m))
                (PyNum.fsub now (if write then last_write (self s)
                                 else last_read (self s)))).
Proof.
  intros Hm. rewrite waittime_eq, (getDelay_eq write s Hm). cbv zeta.
  destruct (refresh_due s).
  - destruct (registry true (world s)) as [procs|e]; [|discriminate].
    destruct (refreshed_frame (ticked s) procs)
      as (_ & _ & _ & Hr & Hw & _).
    pose proof (clamp_refreshed (ticked s) procs) as Hc.
    pose proof (refreshed_multiplicity (ticked s) procs) as Hp.
    remember (refreshed (ticked s) procs) as s' eqn:Es'.
    intros [= <- <-].
    change (self (ticked s')) with (self s').
    rewrite Hc, Hr, Hw.
    eexists; eexists. split; [exact Hp|].
    destruct write; reflexivity.
  - destruct (process_multiplicity (self s)) as [m|] eqn:E; [|discriminate].
    intros [= <- <-].
    exists m. eexists. split; [exact E|]. destruct write; reflexivity.
Qed.



(** ** C6: reading back the registry *)

(** C6: the code at the failing input.  The file holds one malformed line,
    whose time field is [inf], and one well-formed line.  [float('inf')]
    is accepted, [int] of it raises [OverflowError], which the handler
    [except (IndexError, ValueError)] does not catch: the read is aborted
    and the well-formed line is never parsed, in [_read_file], in both of
    its callers and in the constructor. *)
Theorem infinite_stamp_aborts_the_read :
  PyStr.readlines corrupt_file
  = [("1 inf wiki" ++ String PyStr.LF "")%string;
     ("2 4900 wiki" ++ String PyStr.LF "")%string]
  /\ parse_line ("1 inf wiki" ++ String PyStr.LF "") = Raise OverflowError
  /\ parse_line ("2 4900 wiki" ++ String PyStr.LF "")
     = Ok (ProcEntry.mk 2 (IntStamp 4900) "wiki")
  /\ fst (_read_file false corrupt_state) = Raise OverflowError
  /\ fst (checkMultiplicity corrupt_state) = Raise OverflowError
  /\ fst (drop corrupt_state) = Raise OverflowError
  /\ fst (__init__ default_config "wiki" None None None true
            (start (Some corrupt_file) busy_clock)) = Raise OverflowError
  /\ parse_line ("1 1e999 wiki" ++ String PyStr.LF "") = Raise OverflowError.
Proof. vm_compute. repeat split. Qed.

(** A line that raises [ValueError] is skipped and the lines around it are
    parsed as if it were not there. *)
Lemma value_error_line_skipped (before after : list string) (bad : string) :
  parse_line bad = Raise ValueError ->
  parse_lines (before ++ bad :: after) = parse_lines (before ++ after).
Proof.
  intros H. induction before as [|l ls IH]; simpl.
  - rewrite H. reflexivity.
  - rewrite IH. reflexivity.
Qed.

(** Lines with the wrong number of fields, a pid that is not an integer,
    or a time that is not a number or is NaN, raise [ValueError]. *)
Lemma malformed_examples :
  parse_line "garbage" = Raise ValueError
  /\ parse_line "1 2" = Raise ValueError
  /\ parse_line "1 2 wiki extra" = Raise ValueError
  /\ parse_line "1  2 wiki" = Raise ValueError
  /\ parse_line "x 2 wiki" = Raise ValueError
  /\ parse_line "1 y wiki" = Raise ValueError
  /\ parse_line "1 nan wiki" = Raise ValueError
  /\ parse_line "" = Raise ValueError.
Proof. vm_compute. repeat split. Qed.

(** *** Strings made of clean fields *)

Lemma string_forall_app (P : ascii -> bool) (a b : string) :
  string_forall P (a ++ b) = string_forall P a && string_forall P b.
Proof.
  induction a as [|c r IH]; simpl; [reflexivity|].
  rewrite IH. apply andb_assoc.
Qed.

Lemma string_forall_impl (P P' : ascii -> bool) (s : string) :
  (forall c, P c = true -> P' c = true) ->
  string_forall P s = true -> string_forall P' s = true.
Proof.
  intros Himp. induction s as [|c r IH]; simpl; [reflexivity|].
  intros H. apply andb_true_iff in H. destruct H as (Hc & Hr).
  rewrite (Himp c Hc), (IH Hr). reflexivity.
Qed.

Lemma split_clean (sep : ascii) (a : string) :
  string_forall (not_char sep) a = true -> PyStr.split sep a = [a].
Proof.
  induction a as [|c r IH]; simpl; [reflexivity|].
  intros H. apply andb_true_iff in H. destruct H as (Hc & Hr).
  unfold not_char in Hc. apply negb_true_iff in Hc. rewrite Hc, (IH Hr).
  reflexivity.
Qed.

Lemma split_app (sep : ascii) (a b : string) :
  string_forall (not_char sep) a = true ->
  PyStr.split sep (a ++ String sep b) = a :: PyStr.split sep b.
Proof.
  induction a as [|c r IH]; simpl.
  - intros _. rewrite Ascii.eqb_refl. reflexivity.
  - intros H. apply andb_true_iff in H. destruct H as (Hc & Hr).
    unfold not_char in Hc. apply negb_true_iff in Hc. rewrite Hc, (IH Hr).
    reflexivity.
Qed.

Lemma translate_clean (s : string) :
  string_forall (not_char PyStr.CR) s = true -> PyStr.translate_newlines s = s.
Proof.
  induction s as [|c r IH]; simpl; [reflexivity|].
  intros H. apply andb_true_iff in H. destruct H as (Hc & Hr).
  unfold not_char in Hc. apply negb_true_iff in Hc. rewrite Hc, (IH Hr).
  reflexivity.
Qed.

Lemma splitlines_line (body rest : string) :
  string_forall (not_char PyStr.LF) body = true ->
  PyStr.splitlines_keepends ((body ++ String PyStr.LF "") ++ rest)
  = (body ++ String PyStr.LF "")%string :: PyStr.splitlines_keepends rest.
Proof.
  induction body as [|c r IH]; simpl.
  - intros _. reflexivity.
  - intros H. apply andb_true_iff in H. destruct H as (Hc & Hr).
    unfold not_char in Hc. apply negb_true_iff in Hc. rewrite Hc, (IH Hr).
    reflexivity.
Qed.

Lemma rstrip_line (s : string) :
  string_forall nonspace s = true ->
  PyStr.rstrip (s ++ String PyStr.LF "") = s.
Proof.
  induction s as [|c r IH]; simpl; [reflexivity|].
  intros H. apply andb_true_iff in H. destruct H as (Hc & Hr).
  rewrite (IH Hr). unfold nonspace in Hc. apply negb_true_iff in Hc.
  destruct r; [rewrite Hc|]; reflexivity.
Qed.

Lemma nonspace_not (x c : ascii) :
  PyStr.isspace x = true -> nonspace c = true -> not_char x c = true.
Proof.
  unfold nonspace, not_char. intros Hx Hc.
  destruct (Ascii.eqb_spec c x) as [->|]; [|reflexivity].
  rewrite Hx in Hc. discriminate.
Qed.

Lemma numeric_nonspace (c : ascii) : numeric c = true -> nonspace c = true.
Proof.
  unfold numeric, nonspace, PyStr.digit_val, PyStr.isspace.
  destruct ((48 <=? N_of_ascii c) && (N_of_ascii c <=? 57))%N eqn:D.
  - intros _. apply andb_true_iff in D. destruct D as (D1 & D2).
    apply N.leb_le in D1, D2. apply negb_true_iff.
    repeat (apply orb_false_iff; split); try apply andb_false_iff;
      try (left; apply N.leb_gt; lia); try (right; apply N.leb_gt; lia);
      apply N.eqb_neq; lia.
  - intros H. apply orb_true_iff in H.
    destruct H as [H|H]; apply Ascii.eqb_eq in H; subst; reflexivity.
Qed.

Lemma uint_numeric (u : Decimal.uint) :
  string_forall numeric (NilEmpty.string_of_uint u) = true.
Proof. induction u; simpl; auto. Qed.

Lemma nilzero_to_uint (p : positive) :
  NilZero.string_of_uint (Pos.to_uint p)
  = NilEmpty.string_of_uint (Pos.to_uint p).
Proof.
  pose proof (Unsigned.to_uint_nonnil p).
  destruct (Pos.to_uint p); try reflexivity. congruence.
Qed.

Lemma str_int_numeric (z : Z) : string_forall numeric (PyStr.str_int z) = true.
Proof.
  unfold PyStr.str_int.
  destruct z as [|p|p]; simpl; [reflexivity| |];
    rewrite nilzero_to_uint; apply uint_numeric.
Qed.

Lemma digit_char_numeric (x : Z) :
  0 <= x < 10 -> numeric (ascii_of_N (Z.to_N x + 48)) = true.
Proof.
  intros H.
  assert (C : x = 0 \/ x = 1 \/ x = 2 \/ x = 3 \/ x = 4 \/ x = 5 \/ x = 6
              \/ x = 7 \/ x = 8 \/ x = 9) by lia.
  repeat (destruct C as [->|C]; [reflexivity|]). subst. reflexivity.
Qed.

Lemma digits_padded_numeric (n : nat) (m : Z) :
  string_forall numeric (PyStr.digits_padded n m) = true.
Proof.
  revert m; induction n as [|k IH]; intros m; simpl; [reflexivity|].
  rewrite string_forall_app, IH. simpl.
  rewrite digit_char_numeric; [reflexivity|].
  apply Z.mod_pos_bound. lia.
Qed.

Lemma str_float_numeric (q : Q) :
  string_forall numeric (PyStr.str_float q) = true.
Proof.
  unfold PyStr.str_float.
  destruct (PyStr.shortest_decimal 24 0 (Qabs q)) as [f m].
  rewrite !string_forall_app, str_int_numeric.
  match goal with
  | |- context [string_forall numeric (match f with O => ?a | S _ => ?b end)] =>
      assert (D : string_forall numeric (match f with O => a | S _ => b end)
                  = true)
        by (destruct f; [reflexivity|apply digits_padded_numeric]);
      rewrite D
  end.
  destruct (PyNum.ltb q 0); reflexivity.
Qed.

Lemma str_stamp_numeric (t : stamp) :
  string_forall numeric (str_stamp t) = true.
Proof. destruct t; [apply str_int_numeric|apply str_float_numeric]. Qed.

(** A numeral has no blank, no line end and no carriage return. *)
Lemma numeric_clean (x : ascii) (s : string) :
  PyStr.isspace x = true ->
  string_forall numeric s = true -> string_forall (not_char x) s = true.
Proof.
  intros Hx. apply string_forall_impl. intros c Hc.
  apply nonspace_not; [exact Hx|]. now apply numeric_nonspace.
Qed.

Lemma nonspace_clean (x : ascii) (s : string) :
  PyStr.isspace x = true ->
  string_forall nonspace s = true -> string_forall (not_char x) s = true.
Proof.
  intros Hx. apply string_forall_impl. intros c Hc. now apply nonspace_not.
Qed.

(** *** One line *)

(** What reading back a well-formed entry gives: the same pid and site. *)
Lemma parse_format_line (p : ProcEntry.t) :
  well_formed p ->
  exists z : Z,
    parse_line (FORMAT_LINE p)
    = Ok (ProcEntry.mk (ProcEntry.pid p) (IntStamp z) (ProcEntry.site p)).
Proof.
  intros ((x & z & Hx & Hz) & Hs). exists z.
  unfold parse_line.
  change (FORMAT_LINE p)
    with (PyStr.str_int (ProcEntry.pid p)
          ++ String " " (str_stamp (ProcEntry.time p)
                         ++ String " " (ProcEntry.site p
                                        ++ String PyStr.LF "")))%string.
  rewrite split_app
    by (apply numeric_clean; [reflexivity|apply str_int_numeric]).
  rewrite split_app
    by (apply numeric_clean; [reflexivity|apply str_stamp_numeric]).
  rewrite split_clean.
  - rewrite py_int_str_int, Hx, Hz, (rstrip_line _ Hs). reflexivity.
  - rewrite string_forall_app. rewrite nonspace_clean; [reflexivity..|exact Hs].
Qed.

(** *** The whole file *)

Lemma append_empty (s : string) : (s ++ "")%string = s.
Proof. induction s as [|c r IH]; simpl; [|rewrite IH]; reflexivity. Qed.

Lemma append_assoc (a b c : string) :
  ((a ++ b) ++ c)%string = (a ++ (b ++ c))%string.
Proof. induction a as [|x r IH]; simpl; [|rewrite IH]; reflexivity. Qed.

Lemma render_cons (p : ProcEntry.t) (ps : list ProcEntry.t) :
  render (p :: ps) = (FORMAT_LINE p ++ render ps)%string.
Proof.
  unfold render; simpl. destruct ps; simpl; [|reflexivity].
  now rewrite append_empty.
Qed.

(** The text of a line before its line end. *)
Lemma line_body (p : ProcEntry.t) :
  well_formed p ->
  exists body : string,
    FORMAT_LINE p = (body ++ String PyStr.LF "")%string
    /\ string_forall (not_char PyStr.LF) body = true
    /\ string_forall (not_char PyStr.CR) body = true.
Proof.
  intros (_ & Hs).
  exists (PyStr.str_int (ProcEntry.pid p)
          ++ String " " (str_stamp (ProcEntry.time p)
                         ++ String " " (ProcEntry.site p)))%string.
  split.
  - unfold FORMAT_LINE. rewrite append_assoc. simpl.
    rewrite append_assoc. reflexivity.
  - assert (C : forall x, PyStr.isspace x = true -> not_char x " " = true ->
                string_forall (not_char x)
                  (PyStr.str_int (ProcEntry.pid p)
                   ++ String " " (str_stamp (ProcEntry.time p)
                                  ++ String " " (ProcEntry.site p))) = true).
    { intros x Hx Hb. rewrite string_forall_app; simpl.
      rewrite string_forall_app; simpl.
      rewrite (numeric_clean x _ Hx (str_int_numeric _)),
              (numeric_clean x _ Hx (str_stamp_numeric _)),
              (nonspace_clean x _ Hx Hs), Hb.
      reflexivity. }
    split; apply C; reflexivity.
Qed.

Lemma render_no_CR (ps : list ProcEntry.t) :
  Forall well_formed ps ->
  string_forall (not_char PyStr.CR) (render ps) = true.
Proof.
  induction 1 as [|p ps Hp _ IH]; [reflexivity|].
  rewrite render_cons, string_forall_app, IH.
  destruct (line_body p Hp) as (body & -> & _ & Hcr).
  rewrite string_forall_app, Hcr. reflexivity.
Qed.

Lemma readlines_render (ps : list ProcEntry.t) :
  Forall well_formed ps -> PyStr.readlines (render ps) = map FORMAT_LINE ps.
Proof.
  intros H. unfold PyStr.readlines.
  rewrite (translate_clean _ (render_no_CR ps H)).
  induction H as [|p ps Hp _ IH]; [reflexivity|].
  rewrite render_cons. simpl map.
  destruct (line_body p Hp) as (body & -> & Hlf & _).
  rewrite (splitlines_line body _ Hlf), IH. reflexivity.
Qed.

Lemma parse_rendered (ps : list ProcEntry.t) :
  Forall well_formed ps ->
  exists es : list ProcEntry.t,
    parse_lines (map FORMAT_LINE ps) = Ok es
    /\ map pid_site es = map pid_site ps.
Proof.
  induction 1 as [|p ps Hp _ (es & IH1 & IH2)]; simpl.
  - exists []. split; reflexivity.
  - destruct (parse_format_line p Hp) as (z & ->). rewrite IH1.
    eexists. split; [reflexivity|]. simpl. rewrite IH2. reflexivity.
Qed.

Lemma sorted_perm_unique {A : Type} (R : A -> A -> Prop) :
  (forall a b, R a b -> R b a -> a = b) ->
  forall l1 l2 : list A,
    StronglySorted R l1 -> StronglySorted R l2 -> Permutation l1 l2 ->
    l1 = l2.
Proof.
  intros antisym. induction l1 as [|a l1 IH]; intros l2 S1 S2 P.
  - apply Permutation_nil in P. now subst.
  - destruct l2 as [|b l2];
      [apply Permutation_sym, Permutation_nil in P; discriminate|].
    inversion S1 as [|? ? S1' F1]; subst.
    inversion S2 as [|? ? S2' F2]; subst.
    assert (E : a = b).
    { assert (Ha : In a (b :: l2))
        by (eapply Permutation_in; [exact P|now left]).
      assert (Hb : In b (a :: l1))
        by (eapply Permutation_in;
            [apply Permutation_sym; exact P|now left]).
      destruct Ha as [Ha|Ha]; [now symmetry|].
      destruct Hb as [Hb|Hb]; [exact Hb|].
      rewrite Forall_forall in F1, F2. apply antisym; auto. }
    subst b. f_equal. apply IH; try assumption.
    now apply Permutation_cons_inv in P.
Qed.

Lemma pair_order_antisym (a b : Z * string) :
  pair_order a b -> pair_order b a -> a = b.
Proof.
  destruct a as [n1 s1], b as [n2 s2]. unfold pair_order; simpl.
  intros [H1|(H1 & L1)] [H2|(H2 & L2)]; try lia.
  subst. f_equal. now apply String.leb_antisym.
Qed.

Lemma sorted_pairs (ps : list ProcEntry.t) :
  StronglySorted pair_order (map pid_site (sort ps)).
Proof.
  pose proof (sort_sorted ps) as H.
  induction H as [|p l _ IH F]; simpl; constructor; [exact IH|].
  rewrite Forall_forall in *. intros x Hx.
  apply in_map_iff in Hx. destruct Hx as (q & <- & Hq). exact (F q Hq).
Qed.

(** X1: the round trip of the registry: what is written is read back, entry
    for entry, with the same [(pid, site)] pairs, in the sorted order;
    whatever the order the entries were given in, the pairs read back are
    the pairs written. *)
Theorem registry_roundtrip (s : State) (ps : list ProcEntry.t)
    (raise_exc : bool) :
  Forall well_formed ps ->
  writable (world s) = true ->
  exists es : list ProcEntry.t,
    fst (_read_file raise_exc (snd (_write_file ps s))) = Ok es
    /\ map pid_site es = map pid_site (sort ps)
    /\ Permutation (map pid_site es) (map pid_site ps)
    /\ forall ps', Permutation ps' ps ->
                   map pid_site (sort ps') = map pid_site es.
Proof.
  intros Hwf Hw.
  assert (Hsorted : Forall well_formed (sort ps)).
  { apply Forall_forall. intros p Hp. rewrite Forall_forall in Hwf.
    apply Hwf. eapply Permutation_in; [|exact Hp].
    apply Permutation_sym, sort_perm. }
  rewrite write_file_eq, read_file_eq. unfold written. rewrite Hw.
  unfold registry; simpl.
  rewrite (readlines_render _ Hsorted).
  destruct (parse_rendered _ Hsorted) as (es & H1 & H2).
  exists es. split; [exact H1|]. split; [exact H2|]. split.
  - rewrite H2. apply Permutation_map, Permutation_sym, sort_perm.
  - intros ps' Hperm. rewrite H2.
    apply (sorted_perm_unique pair_order pair_order_antisym).
    + apply sorted_pairs.
    + apply sorted_pairs.
    + apply Permutation_map.
      rewrite <- (sort_perm ps'), <- (sort_perm ps). exact Hperm.
Qed.

(** *** Stamps that read back *)

Lemma to_float_eq (q1 q2 : Q) :
  (q1 == q2)%Q -> PyNum.to_float q1 = PyNum.to_float q2.
Proof.
  intros H. unfold PyNum.to_float. rewrite (Qred_complete _ _ H). reflexivity.
Qed.

Lemma keyword_uint (u : Decimal.uint) :
  u <> Decimal.Nil ->
  let k := PyStr.lower_str (NilEmpty.string_of_uint u) in
  String.eqb k "inf" = false /\ String.eqb k "infinity" = false
  /\ String.eqb k "nan" = false.
Proof.
  destruct u; try congruence; intros _; repeat split; reflexivity.
Qed.

Lemma py_float_uint (u : Decimal.uint) (neg : bool) :
  u <> Decimal.Nil ->
  (if (String.eqb (PyStr.lower_str (NilEmpty.string_of_uint u)) "inf"
       || String.eqb (PyStr.lower_str (NilEmpty.string_of_uint u))
                     "infinity")%bool
   then Some (PyNum.FInf neg)
   else if String.eqb (PyStr.lower_str (NilEmpty.string_of_uint u)) "nan"
   then Some PyNum.FNan
   else match PyStr.decimal (NilEmpty.string_of_uint u) with
        | Some q => Some (PyNum.to_float (if neg then - q else q)%Q)
        | None => None
        end)
  = Some (PyNum.to_float
            (inject_Z (if neg then - Z.of_N (Pos.of_uint u)
                       else Z.of_N (Pos.of_uint u)))).
Proof.
  intros Hu.
  destruct (keyword_uint u Hu) as (-> & -> & ->).
  simpl orb. cbv iota.
  unfold PyStr.decimal. destruct (digitpart_uint u Hu) as (k & ->).
  simpl PyStr.exponent. cbv iota beta.
  f_equal. apply to_float_eq.
  change (PyNum.pow10 (0 - Z.of_nat 0)) with 1%Q.
  destruct neg; [rewrite inject_Z_opp|]; rewrite Qmult_1_r; reflexivity.
Qed.

(** An integer stamp within the range of floats reads back. *)
Lemma int_stamp_reads (z : Z) (q : Q) :
  PyNum.to_float (inject_Z z) = PyNum.FFinite q -> stamp_reads (IntStamp z).
Proof.
  intros H. exists (PyNum.FFinite q), (PyNum.trunc q).
  split; [|reflexivity]. simpl str_stamp. rewrite <- H.
  unfold PyStr.py_float, PyStr.str_int.
  destruct z as [|p|p]; [reflexivity| |]; simpl NilZero.string_of_int;
    rewrite nilzero_to_uint.
  - rewrite (strip_nonspace _ (uint_nonspace _)), sign_uint.
    cbv beta iota zeta.
    rewrite (py_float_uint _ false (Unsigned.to_uint_nonnil p)).
    rewrite DecimalPos.Unsigned.of_to. reflexivity.
  - rewrite (strip_nonspace (String "-" _)) by (simpl; apply uint_nonspace).
    simpl PyStr.sign. cbv beta iota zeta.
    rewrite (py_float_uint _ true (Unsigned.to_uint_nonnil p)).
    rewrite DecimalPos.Unsigned.of_to. reflexivity.
Qed.

(** The entries of the example file, and an entry stamped by the clock,
    are well formed. *)
Lemma well_formed_examples :
  Forall well_formed shared_entries
  /\ well_formed (ProcEntry.mk 1 (FloatStamp (2001 # 2)) "wiki").
Proof.
  split.
  - repeat constructor;
      try (eapply int_stamp_reads; vm_compute; reflexivity).
  - split; [|reflexivity].
    eexists; eexists. split; vm_compute; reflexivity.
Qed.

(** * Further properties of the throttle *)

(** ** Reading the registry *)

Lemma registry_roundtrip_witness :
  exists es : list ProcEntry.t,
    fst (_read_file true (snd (_write_file shared_entries shared_state)))
    = Ok es
    /\ map pid_site es
       = [(1, "wiki"); (2, "other"); (2, "wiki"); (3, "wiki"); (4, "wiki")]%string.
Proof.
  destruct (registry_roundtrip shared_state shared_entries true
              (proj1 well_formed_examples) eq_refl)
    as (es & H1 & H2 & _).
  exists es. split; [exact H1|]. rewrite H2. reflexivity.
Defined.

Lemma parse_line_raises (line : string) (e : exn) :
  parse_line line = Raise e -> e = ValueError \/ e = OverflowError.
Proof.
  unfold parse_line.
  destruct (PyStr.split " " line) as [|f1 [|f2 [|f3 [|]]]];
    try (intros [= <-]; now left).
  destruct (PyStr.py_int f1) as [n|]; [|intros [= <-]; now left].
  destruct (PyStr.py_float f2) as [[q|b|]|]; simpl;
    try discriminate; intros [= <-]; auto.
Qed.

Lemma parse_lines_ok (lines : list string) :
  (forall l, In l lines -> parse_line l <> Raise OverflowError) ->
  parse_lines lines = Ok (parsed_entries lines).
Proof.
  induction lines as [|l ls IH]; intros H; simpl; [reflexivity|].
  rewrite IH by (intros l' Hl'; apply H; now right).
  destruct (parse_line l) as [p|e] eqn:E; [reflexivity|].
  destruct (parse_line_raises l e E) as [-> | ->]; [reflexivity|].
  exfalso. apply (H l); [now left|exact E].
Qed.

Lemma parse_lines_raises (lines : list string) (e : exn) :
  parse_lines lines = Raise e ->
  e = OverflowError
  /\ exists l, In l lines /\ parse_line l = Raise OverflowError.
Proof.
  induction lines as [|l ls IH]; simpl; [discriminate|].
  destruct (parse_line l) as [p|x] eqn:E.
  - destruct (parse_lines ls) as [es|y]; [discriminate|].
    intros [= <-]. destruct (IH eq_refl) as (-> & l' & Hl' & E').
    split; [reflexivity|]. exists l'. auto.
  - destruct (parse_line_raises l x E) as [-> | ->].
    + intros H. destruct (IH H) as (-> & l' & Hl' & E').
      split; [reflexivity|]. exists l'. auto.
    + intros [= <-]. split; [reflexivity|]. exists l. auto.
Qed.



(** ** Setting the delays *)

Lemma setDelays_eq (config : Config) (d w : option Q) (absolute : bool)
    (s : State) :
  setDelays config d w absolute s =
  let t := self s in
  let delay' := PyNum.opt_or d (mindelay t) in
  let writedelay' := PyNum.opt_or w (put_throttle config) in
  let t1 := if absolute then set_mindelay delay' (set_maxdelay delay' t)
            else t in
  let t2 := set_delay delay' t1 in
  let t3 := set_writedelay
              (PyNum.min (PyNum.max (mindelay t2) writedelay') (maxdelay t2))
              t2 in
  let now := clock (world s) (ticks (world s)) in
  (Ok tt, mkState (set_last_write now (set_last_read now t3))
                  (tick (world s))).
Proof.
  unfold setDelays, bind, get_self, update, time_time, ret.
  destruct absolute; reflexivity.
Qed.

Lemma min_max_pinned (v w : Q) : PyNum.min (PyNum.max v w) v = v.
Proof.
  unfold PyNum.min, PyNum.max.
  destruct (PyNum.gtb w v) eqn:G.
  - change (PyNum.ltb v w) with (PyNum.gtb w v). rewrite G. reflexivity.
  - destruct (PyNum.ltb v v); reflexivity.
Qed.

Lemma min_max_between (lo hi w : Q) :
  (lo <= hi)%Q ->
  (lo <= PyNum.min (PyNum.max lo w) hi)%Q
  /\ (PyNum.min (PyNum.max lo w) hi <= hi)%Q.
Proof.
  intros H.
  destruct (min_is_min (PyNum.max lo w) hi) as (_ & Hhi & [E|E]);
    rewrite E in *; split; try assumption; try apply Qle_refl.
  apply (max_is_max lo w).
Qed.

(** X3: [setDelays(delay, writedelay, absolute=True)] always returns and
    pins the four delays to one value: [mindelay], [maxdelay], [delay]
    and [writedelay] all become [delay or self.mindelay], whatever
    [writedelay] was asked for; both access stamps are set to the same
    clock reading. *)
Theorem setDelays_absolute_pins (config : Config) (d w : option Q)
    (s : State) :
  let v := PyNum.opt_or d (mindelay (self s)) in
  let now := clock (world s) (ticks (world s)) in
  exists s' : State,
    setDelays config d w true s = (Ok tt, s')
    /\ mindelay (self s') = v /\ maxdelay (self s') = v
    /\ delay (self s') = v /\ writedelay (self s') = v
    /\ last_read (self s') = now /\ last_write (self s') = now
    /\ world s' = tick (world s).
Proof.
  cbv zeta. rewrite setDelays_eq. cbv zeta. eexists. split; [reflexivity|].
  simpl. rewrite min_max_pinned. repeat split.
Qed.



(** ** Leaving the registry *)

(** X5: when [drop] can read and write the control file it returns, and
    the file then holds, sorted, exactly the entries read that belong to
    another pid and are not older than [releasepid]: every entry of this
    process, on whatever site, is gone, and so is every expired entry.
    [checktime] is reset to [0] and the process keeps its id.  When there
    was no control file, [drop] leaves an empty one. *)
Theorem drop_removes_own_entries (s : State) (procs : list ProcEntry.t) :
  registry false (world s) = Ok procs ->
  writable (world s) = true ->
  let g := pid (world s) in
  let now := clock (world s) (ticks (world s)) in
  exists (s' : State) (kept : list ProcEntry.t),
    drop s = (Ok tt, s')
    /\ ctrlfile (world s') = Some (render (sort kept))
    /\ (forall p, In p kept <->
                  In p procs /\ ProcEntry.pid p <> g
                  /\ (age now p <= releasepid (self s))%Q)
    /\ checktime (self s') = 0%Q
    /\ pid (world s') = g
    /\ (ctrlfile (world s) = None -> ctrlfile (world s') = Some ""%string).
Proof.
  intros Hr Hw g now. rewrite drop_eq, Hr. cbv zeta.
  exists (written (filter (survives_drop (self s) g now) procs)
            (emit (OpenRead (readable (world s)))
               (ticked (mkState (set_checktime 0 (self s)) (world s))))).
  exists (filter (survives_drop (self s) g now) procs).
  split; [reflexivity|].
  unfold written; simpl. rewrite Hw; simpl.
  split; [reflexivity|]. split.
  - intros p. rewrite filter_In. unfold survives_drop, age.
    rewrite andb_true_iff, negb_true_iff, Z.eqb_neq, leb_le. tauto.
  - repeat split. intros Hn. unfold registry in Hr. rewrite Hn in Hr.
    simpl in Hr. injection Hr as <-. reflexivity.
Qed.

Lemma drop_removes_witness :
  exists (s' : State) (kept : list ProcEntry.t),
    drop shared_state = (Ok tt, s')
    /\ ctrlfile (world s') = Some (render (sort kept))
    /\ ~ In (ProcEntry.mk 1 (IntStamp 4000) "wiki") kept
    /\ In (ProcEntry.mk 3 (IntStamp 4100) "wiki") kept.
Proof.
  destruct (drop_removes_own_entries shared_state shared_entries
              eq_refl eq_refl) as (s' & kept & H1 & H2 & H3 & _).
  exists s', kept. split; [exact H1|]. split; [exact H2|]. split.
  - intros H. apply H3 in H. destruct H as (_ & H & _). now apply H.
  - apply H3. split; [simpl; tauto|]. split; [discriminate|].
    vm_compute. discriminate.
Defined.


(** ** Refreshing the registry *)

Lemma filter_perm {A : Type} (f : A -> bool) (l l' : list A) :
  Permutation l l' -> Permutation (filter f l) (filter f l').
Proof.
  induction 1 as [|x l l' _ IH|x y l|l l' l'' _ IH1 _ IH2]; simpl.
  - constructor.
  - destruct (f x); [now constructor|exact IH].
  - destruct (f x), (f y); try reflexivity. apply perm_swap.
  - now transitivity (filter f l').
Qed.

Lemma filter_none {A : Type} (f : A -> bool) (l : list A) :
  (forall x, In x l -> f x = false) -> filter f l = [].
Proof.
  induction l as [|x l IH]; intros H; simpl; [reflexivity|].
  rewrite (H x) by now left. apply IH. intros y Hy. apply H. now right.
Qed.

Lemma refreshed_pid (s : State) (procs : list ProcEntry.t) :
  pid (world (refreshed s procs))
  = if PyNum.truthyZ (pid (world s)) then pid (world s)
    else next_pid 1
           (filter (live (self s) (clock (world s) (ticks (world s)))) procs).
Proof.
  unfold refreshed, written; simpl. rewrite scan_eq; simpl.
  destruct (PyNum.truthyZ (pid (world s))), (writable (world s));
    reflexivity.
Qed.

Lemma kept_not_own (s : State) (procs : list ProcEntry.t) (p : ProcEntry.t) :
  In p (filter (retained (self s) (pid (world s))
                  (clock (world s) (ticks (world s)))) procs) ->
  is_own (self s) (pid (world (refreshed s procs))) p = false.
Proof.
  intros H. apply filter_In in H. destruct H as (Hp & Hr).
  unfold retained in Hr. apply andb_true_iff in Hr. destruct Hr as (Hl & Hk).
  unfold is_own. rewrite refreshed_pid. unfold PyNum.truthyZ.
  destruct (Z.eqb_spec (pid (world s)) 0) as [G|G]; simpl.
  - assert (Hin : In p (filter (live (self s)
                                  (clock (world s) (ticks (world s)))) procs))
      by (apply filter_In; split; assumption).
    pose proof (next_pid_above _ 1 p Hin) as Hlt.
    apply andb_false_iff. left. apply Z.eqb_neq. lia.
  - apply orb_true_iff in Hk. apply andb_false_iff.
    destruct Hk as [Hk|Hk]; apply negb_true_iff in Hk; auto.
Qed.





(** X9: a control file that cannot be opened for writing does not stop a
    refresh: the [IOError] of the write is suppressed, the file stays as
    it was, and the refresh still returns with [checktime] stamped and a
    multiplicity of at least one recorded. *)
Theorem refresh_survives_unwritable_file
    (s : State) (procs : list ProcEntry.t) :
  registry true (world s) = Ok procs ->
  writable (world s) = false ->
  exists (s' : State) (n : Z),
    checkMultiplicity s = (Ok tt, s')
    /\ ctrlfile (world s') = ctrlfile (world s)
    /\ process_multiplicity (self s') = Some n
    /\ 1 <= n
    /\ checktime (self s') = clock (world s) (S (ticks (world s)))
    /\ trace (world s')
       = OpenWrite false :: OpenRead (readable (world s)) :: trace (world s).
Proof.
  intros Hr Hw. rewrite checkMultiplicity_eq, Hr.
  exists (refreshed s procs). eexists.
  split; [reflexivity|].
  split; [unfold refreshed, written; simpl; rewrite Hw; reflexivity|].
  split; [apply refreshed_multiplicity|].
  split; [rewrite scan_eq; cbn [count]; lia|].
  unfold refreshed, written; simpl; rewrite Hw. split; reflexivity.
Qed.

Lemma refresh_survives_witness :
  exists (s' : State) (n : Z),
    checkMultiplicity (read_only shared_state) = (Ok tt, s')
    /\ ctrlfile (world s') = Some shared_file
    /\ process_multiplicity (self s') = Some n.
Proof.
  destruct (refresh_survives_unwritable_file (read_only shared_state)
              shared_entries eq_refl eq_refl)
    as (s' & n & H1 & H2 & H3 & _).
  exists s', n. split; [exact H1|]. split; [rewrite H2; reflexivity|exact H3].
Defined.


(** ** Acquiring *)





(** ** Constructing *)

(** The object [__init__] assigns before it checks the multiplicity. *)
Lemma init_eq (config : Config) (site : string) (a b c : option Q)
    (flag : bool) (s : State) :
  __init__ config site a b c flag s =
  let t0 :=
    {| mysite := site;
       mindelay := PyNum.opt_or a (minthrottle config);
       maxdelay := PyNum.opt_or b (maxthrottle config);
       writedelay := PyNum.opt_or c (put_throttle config);
       last_read := 0; last_write := 0; next_multiplicity := 1;
       checkdelay := 300; dropdelay := 600; releasepid := 1200;
       retry_after := 0; delay := 0; checktime := 0;
       multiplydelay := flag; process_multiplicity := None |} in
  let s0 := mkState t0 (world s) in
  if flag then
    match registry true (world s) with
    | Ok procs => setDelays config None None false (refreshed s0 procs)
    | Raise e =>
        (Raise e, emit (OpenRead (readable (world s))) (ticked s0))
    end
  else setDelays config None None false s0.
Proof.
  unfold __init__, bind at 1, update at 1. cbv beta iota zeta.
  destruct flag.
  - unfold bind at 1. rewrite checkMultiplicity_eq.
    cbn [world self].
    destruct (registry true (world s)) as [procs|e]; reflexivity.
  - reflexivity.
Qed.

(** X14: the [writedelay] argument of the constructor has no effect: the
    value it assigns is overwritten by the call of [setDelays] that ends
    the constructor, which starts again from [config.put_throttle].  Two
    constructions that differ only in that argument raise the same
    exception or return the same throttle in the same world. *)
Theorem constructor_ignores_writedelay
    (config : Config) (site : string) (a b c c' : option Q) (flag : bool)
    (s : State) :
  match __init__ config site a b c flag s with
  | (Ok _, s') => __init__ config site a b c' flag s = (Ok tt, s')
  | (Raise e, _) => fst (__init__ config site a b c' flag s) = Raise e
  end.
Proof.
  rewrite !init_eq. cbv zeta.
  destruct flag.
  - destruct (registry true (world s)) as [procs|e]; [|reflexivity].
    rewrite !setDelays_eq. cbv zeta.
    unfold refreshed, written; simpl.
    destruct (writable (world s)); reflexivity.
  - rewrite !setDelays_eq. reflexivity.
Qed.

Lemma refreshed_settings (s : State) (procs : list ProcEntry.t) :
  let t := self s in
  let t' := self (refreshed s procs) in
  mysite t' = mysite t /\ multiplydelay t' = multiplydelay t
  /\ checkdelay t' = checkdelay t /\ dropdelay t' = dropdelay t
  /\ releasepid t' = releasepid t /\ retry_after t' = retry_after t.
Proof.
  unfold refreshed, written; simpl.
  destruct (writable (world s)); simpl; repeat split; reflexivity.
Qed.

(** X15: a construction in multiplicity mode that can read the registry
    returns a throttle for the site with the windows [checkdelay = 300],
    [dropdelay = 600 <= releasepid = 1200], a multiplicity of at least
    one, [next_multiplicity = 1.0], no [retry_after], the read delay at
    [mindelay], and both access stamps at the same clock reading; the
    process then holds a positive id, provided the global [pid] started
    as [False] or a positive id. *)
Theorem constructor_establishes
    (config : Config) (site : string) (a b c : option Q) (s : State)
    (procs : list ProcEntry.t) :
  registry true (world s) = Ok procs ->
  0 <= pid (world s) ->
  exists (s' : State) (n : Z),
    __init__ config site a b c true s = (Ok tt, s')
    /\ mysite (self s') = site
    /\ multiplydelay (self s') = true
    /\ (checkdelay (self s') = 300 /\ dropdelay (self s') = 600
        /\ releasepid (self s') = 1200)%Q
    /\ (dropdelay (self s') <= releasepid (self s'))%Q
    /\ process_multiplicity (self s') = Some n /\ 1 <= n
    /\ 1 <= pid (world s')
    /\ next_multiplicity (self s') = 1%Q
    /\ retry_after (self s') = 0%Q
    /\ mindelay (self s') = PyNum.opt_or a (minthrottle config)
    /\ maxdelay (self s') = PyNum.opt_or b (maxthrottle config)
    /\ delay (self s') = mindelay (self s')
    /\ last_read (self s') = last_write (self s').
Proof.
  intros Hr Hp. rewrite init_eq. cbv zeta. rewrite Hr, setDelays_eq.
  cbv zeta.
  match goal with
  | |- context [refreshed ?s0 procs] =>
      destruct (refreshed_settings s0 procs)
        as (Hsite & Hmul & Hcd & Hdd & Hrp & Hra);
      destruct (refreshed_frame s0 procs)
        as (Hmin & Hmax & Hnm & _);
      pose proof (refreshed_pid s0 procs) as Hpid;
      pose proof (refreshed_multiplicity s0 procs) as Hpm;
      rewrite scan_eq in Hpm;
      remember (refreshed s0 procs) as s1 eqn:Es1
  end.
  cbn [self world pid mysite multiplydelay checkdelay dropdelay releasepid
       retry_after mindelay maxdelay next_multiplicity count] in *.
  eexists. eexists. split; [reflexivity|].
  cbn -[PyNum.min PyNum.max PyNum.opt_or].
  rewrite Hsite, Hmul, Hcd, Hdd, Hrp, Hra, Hmin, Hmax, Hnm.
  split; [reflexivity|]. split; [reflexivity|].
  split; [repeat split|].
  split; [vm_compute; discriminate|].
  split; [exact Hpm|]. split; [lia|]. split.
  { rewrite Hpid. unfold PyNum.truthyZ.
    destruct (Z.eqb_spec (pid (world s)) 0); simpl; [apply next_pid_ge|lia]. }
  repeat split.
Qed.

Lemma constructor_establishes_witness :
  exists (s' : State) (n : Z),
    __init__ default_config "wiki" (Some 5%Q) (Some 20%Q) None true
      (start (Some shared_file) busy_clock) = (Ok tt, s')
    /\ process_multiplicity (self s') = Some n /\ 1 <= n
    /\ 1 <= pid (world s')
    /\ delay (self s') = mindelay (self s').
Proof.
  assert (Hp : 0 <= pid (world (start (Some shared_file) busy_clock)))
    by (vm_compute; discriminate).
  destruct (constructor_establishes default_config "wiki" (Some 5%Q)
              (Some 20%Q) None (start (Some shared_file) busy_clock)
              shared_entries eq_refl Hp)
    as (s' & n & H1 & _ & _ & _ & _ & H2 & H3 & H4 & _ & _ & _ & _ & H5 & _).
  exists s', n. auto.
Defined.

